(** * The gating layer of the answer controller

    A shallow embedding of [internal/controller/answer_controller.go]: the
    handlers [RemoveAnswer], [AddAnswer], [UpdateAnswer] and
    [AdminUpdateAnswerStatus] are written as programs of a small monad that
    threads the state of everything outside the controller, records every
    call into a collaborator together with what it returned, and knows
    Go's early [return], [defer] and index panic.

    The collaborators themselves (rank service, captcha service, rate-limit
    middleware, answer service, the [handler], [middleware], [uid] and
    [translator] packages) are not part of the controller file; they are
    taken as interfaces, one record per Go receiver or package. *)

From stdpp Require Import base list gmap strings sorting.

Set Implicit Arguments.
Set Default Proof Using "Type".

Local Open Scope string_scope.
Local Open Scope Z_scope.
Local Open Scope list_scope.

(** ** Values shared with the collaborating packages *)

(** Package [reason]: string constants used as error reasons. Only the
    identity of the three constants the controller names matters here. *)
Module reason.
Inductive Reason : Type :=
| CaptchaVerificationFailed
| RankFailToMeetTheCondition
| AnswerRestrictAnswer
| Other (key : string).
End reason.

(** Package [errors] of segmentfault/pacman: an error carries an HTTP code
    and a reason. Any other Go [error] value is [Plain]. *)
Module errors.
Inductive error : Type :=
| New (code : Z) (r : reason.Reason)
| Plain (msg : string).

Definition StatusBadRequest : Z := 400.
Definition StatusForbidden : Z := 403.

Definition BadRequest (r : reason.Reason) : error := New StatusBadRequest r.
Definition Forbidden (r : reason.Reason) : error := New StatusForbidden r.
End errors.

(** [net/http]. *)
Module http.
Definition StatusOK : Z := 200.
End http.

(** Package [permission]: the action names the controller asks about. *)
Module permission.
Inductive Action : Type :=
| AnswerAdd
| AnswerEdit
| AnswerEditWithoutReview
| AnswerDelete
| AnswerUnDelete
| AnswerAccept
| LinkUrlLimit.

(** [schema.PermissionMemberAction] as far as the controller sees it. *)
Record MemberAction : Type := { Action_ : string; Name : string; Type_ : string }.
End permission.

(** Package [entity]: the action kinds of the captcha service. *)
Module entity.
Inductive CaptchaAction : Type :=
| CaptchaActionAnswer
| CaptchaActionEdit
| CaptchaActionDelete.
End entity.

Module validator.
Record FormErrorField : Type := { ErrorField : string; ErrorMsg : string }.
End validator.

(** Package [schema]: the request and response structs, with the fields the
    controller reads or writes; [Content] stands for the rest of the body. *)
Module schema.
Module RemoveAnswerReq.
Record t : Type := {
  ID : string; UserID : string; CanDelete : bool;
  CaptchaID : string; CaptchaCode : string }.
Definition with_ID (v : string) (r : t) : t :=
  {| ID := v; UserID := UserID r; CanDelete := CanDelete r;
     CaptchaID := CaptchaID r; CaptchaCode := CaptchaCode r |}.
Definition with_UserID (v : string) (r : t) : t :=
  {| ID := ID r; UserID := v; CanDelete := CanDelete r;
     CaptchaID := CaptchaID r; CaptchaCode := CaptchaCode r |}.
Definition with_CanDelete (v : bool) (r : t) : t :=
  {| ID := ID r; UserID := UserID r; CanDelete := v;
     CaptchaID := CaptchaID r; CaptchaCode := CaptchaCode r |}.
End RemoveAnswerReq.

Module AnswerAddReq.
Record t : Type := {
  QuestionID : string; Content : string; UserID : string;
  CanEdit : bool; CanDelete : bool;
  CaptchaID : string; CaptchaCode : string;
  IP : string; UserAgent : string }.
Definition with_QuestionID (v : string) (r : t) : t :=
  {| QuestionID := v; Content := Content r; UserID := UserID r;
     CanEdit := CanEdit r; CanDelete := CanDelete r;
     CaptchaID := CaptchaID r; CaptchaCode := CaptchaCode r;
     IP := IP r; UserAgent := UserAgent r |}.
Definition with_UserID (v : string) (r : t) : t :=
  {| QuestionID := QuestionID r; Content := Content r; UserID := v;
     CanEdit := CanEdit r; CanDelete := CanDelete r;
     CaptchaID := CaptchaID r; CaptchaCode := CaptchaCode r;
     IP := IP r; UserAgent := UserAgent r |}.
Definition with_UserAgent (v : string) (r : t) : t :=
  {| QuestionID := QuestionID r; Content := Content r; UserID := UserID r;
     CanEdit := CanEdit r; CanDelete := CanDelete r;
     CaptchaID := CaptchaID r; CaptchaCode := CaptchaCode r;
     IP := IP r; UserAgent := v |}.
Definition with_IP (v : string) (r : t) : t :=
  {| QuestionID := QuestionID r; Content := Content r; UserID := UserID r;
     CanEdit := CanEdit r; CanDelete := CanDelete r;
     CaptchaID := CaptchaID r; CaptchaCode := CaptchaCode r;
     IP := v; UserAgent := UserAgent r |}.
Definition with_CanEdit (v : bool) (r : t) : t :=
  {| QuestionID := QuestionID r; Content := Content r; UserID := UserID r;
     CanEdit := v; CanDelete := CanDelete r;
     CaptchaID := CaptchaID r; CaptchaCode := CaptchaCode r;
     IP := IP r; UserAgent := UserAgent r |}.
Definition with_CanDelete (v : bool) (r : t) : t :=
  {| QuestionID := QuestionID r; Content := Content r; UserID := UserID r;
     CanEdit := CanEdit r; CanDelete := v;
     CaptchaID := CaptchaID r; CaptchaCode := CaptchaCode r;
     IP := IP r; UserAgent := UserAgent r |}.
End AnswerAddReq.

Module AnswerUpdateReq.
Record t : Type := {
  ID : string; QuestionID : string; Content : string; UserID : string;
  NoNeedReview : bool; CanEdit : bool;
  CaptchaID : string; CaptchaCode : string }.
Definition with_QuestionID (v : string) (r : t) : t :=
  {| ID := ID r; QuestionID := v; Content := Content r; UserID := UserID r;
     NoNeedReview := NoNeedReview r; CanEdit := CanEdit r;
     CaptchaID := CaptchaID r; CaptchaCode := CaptchaCode r |}.
Definition with_UserID (v : string) (r : t) : t :=
  {| ID := ID r; QuestionID := QuestionID r; Content := Content r; UserID := v;
     NoNeedReview := NoNeedReview r; CanEdit := CanEdit r;
     CaptchaID := CaptchaID r; CaptchaCode := CaptchaCode r |}.
Definition with_CanEdit (v : bool) (r : t) : t :=
  {| ID := ID r; QuestionID := QuestionID r; Content := Content r;
     UserID := UserID r; NoNeedReview := NoNeedReview r; CanEdit := v;
     CaptchaID := CaptchaID r; CaptchaCode := CaptchaCode r |}.
Definition with_NoNeedReview (v : bool) (r : t) : t :=
  {| ID := ID r; QuestionID := QuestionID r; Content := Content r;
     UserID := UserID r; NoNeedReview := v; CanEdit := CanEdit r;
     CaptchaID := CaptchaID r; CaptchaCode := CaptchaCode r |}.
End AnswerUpdateReq.

Module AdminUpdateAnswerStatusReq.
Record t : Type := { AnswerID : string; Status : string; UserID : string }.
Definition with_AnswerID (v : string) (r : t) : t :=
  {| AnswerID := v; Status := Status r; UserID := UserID r |}.
Definition with_UserID (v : string) (r : t) : t :=
  {| AnswerID := AnswerID r; Status := Status r; UserID := v |}.
End AdminUpdateAnswerStatusReq.

Module AnswerInfo.
Record t : Type := {
  ID : string; UserID : string; Content : string;
  MemberActions : list permission.MemberAction }.
Definition with_MemberActions (v : list permission.MemberAction) (r : t) : t :=
  {| ID := ID r; UserID := UserID r; Content := Content r;
     MemberActions := v |}.
End AnswerInfo.

Module QuestionInfoResp.
Record t : Type := { ID : string; Title : string }.
End QuestionInfoResp.

Module SiteWriteResp.
Record t : Type := { RestrictAnswer : bool }.
End SiteWriteResp.
End schema.

(** What a handler hands to [handler.HandleResponse] as [data]. *)
Inductive RespData : Type :=
| NoData
| ErrFields (fields : list validator.FormErrorField)
| InfoAndQuestion (info : schema.AnswerInfo.t) (question : schema.QuestionInfoResp.t)
| AnswerUpdateResp (WaitForReview : bool).

(** ** The collaborators, as interfaces

    [W] is the state of everything outside the controller: the gin context
    of the request with its response writer, and the stores behind the
    services. An operation takes the state and returns its results with the
    state it leaves. *)

Module content.
Record AnswerService (W : Type) : Type := {
  RemoveAnswer : schema.RemoveAnswerReq.t → W → option errors.error * W;
  Insert : schema.AnswerAddReq.t → W → (string * option errors.error) * W;
  Update : schema.AnswerUpdateReq.t → W → (string * option errors.error) * W;
  Get : string → string → W →
        (schema.AnswerInfo.t * schema.QuestionInfoResp.t * bool
         * option errors.error) * W;
  GetCountByUserIDQuestionID :
    string → string → W → (list string * option errors.error) * W;
  AdminSetAnswerStatus :
    schema.AdminUpdateAnswerStatusReq.t → W → option errors.error * W }.
End content.

Module rank.
Record RankService (W : Type) : Type := {
  CheckOperationPermissions :
    string → list permission.Action → W → (list bool * option errors.error) * W;
  CheckOperationPermission :
    string → permission.Action → string → W → (bool * option errors.error) * W;
  CheckOperationObjectOwner : string → string → W → bool * W }.
End rank.

Module action.
Record CaptchaService (W : Type) : Type := {
  ActionRecordVerifyCaptcha :
    entity.CaptchaAction → string → string → string → W → bool * W;
  ActionRecordAdd : entity.CaptchaAction → string → W → W }.
End action.

Module siteinfo_common.
Record SiteInfoCommonService (W : Type) : Type := {
  GetSiteWrite : W → (schema.SiteWriteResp.t * option errors.error) * W }.
End siteinfo_common.

Module middleware.
Record RateLimitMiddleware (W : Type) : Type := {
  DuplicateRequestRejection : schema.AnswerAddReq.t → W → (bool * string) * W;
  DuplicateRequestClear : string → W → W }.

Record Pkg (W : Type) : Type := {
  GetLoginUserIDFromContext : W → string;
  GetUserIsAdminModerator : W → bool }.
End middleware.

Module handler.
(** [BindAndCheck] fills the request struct from the body and returns
    [true] when binding or validation failed (it has then answered the
    request itself). One field per request type it is used at. *)
Record Pkg (W : Type) : Type := {
  BindAndCheck_RemoveAnswerReq : W → (bool * schema.RemoveAnswerReq.t) * W;
  BindAndCheck_AnswerAddReq : W → (bool * schema.AnswerAddReq.t) * W;
  BindAndCheck_AnswerUpdateReq : W → (bool * schema.AnswerUpdateReq.t) * W;
  BindAndCheck_AdminUpdateAnswerStatusReq :
    W → (bool * schema.AdminUpdateAnswerStatusReq.t) * W;
  HandleResponse : option errors.error → RespData → W → W;
  GetLang : W → string }.
End handler.

Module gin.
Record Context (W : Type) : Type := {
  GetHeader : string → W → string;
  ClientIP : W → string;
  Writer_Status : W → Z }.
End gin.

(** The controller struct of the source, field for field. *)
Record AnswerController (W : Type) : Type := {
  answerService : content.AnswerService W;
  rankService : rank.RankService W;
  actionService : action.CaptchaService W;
  siteInfoCommonService : siteinfo_common.SiteInfoCommonService W;
  rateLimitMiddleware : middleware.RateLimitMiddleware W }.

(** The package-level functions the handlers call. *)
Record Packages (W : Type) : Type := {
  pkg_gin : gin.Context W;
  pkg_handler : handler.Pkg W;
  pkg_middleware : middleware.Pkg W;
  uid_DeShortID : string → string;
  translator_Tr : string → reason.Reason → string;
  permission_GetAnswerPermission :
    W → string → string → Z → bool → bool → bool → list permission.MemberAction }.

(** ** What a handler does, as a log

    One event per call into a collaborator, with the arguments passed and
    the results returned. *)
Inductive event : Type :=
| EBindAndCheck (failed : bool)
| EGetLoginUserIDFromContext (userID : string)
| EGetUserIsAdminModerator (isAdmin : bool)
| EDuplicateRequestRejection (req : schema.AnswerAddReq.t) (reject : bool) (key : string)
| EWriterStatus (status : Z)
| EDuplicateRequestClear (key : string)
| ECheckOperationPermissions (userID : string) (actions : list permission.Action)
    (can : list bool) (err : option errors.error)
| ECheckOperationPermission (userID : string) (act : permission.Action)
    (objectID : string) (can : bool) (err : option errors.error)
| ECheckOperationObjectOwner (userID objectID : string) (owner : bool)
| EActionRecordVerifyCaptcha (kind : entity.CaptchaAction)
    (userID captchaID captchaCode : string) (pass : bool)
| EActionRecordAdd (kind : entity.CaptchaAction) (userID : string)
| EGetSiteWrite (write : schema.SiteWriteResp.t) (err : option errors.error)
| EGetCountByUserIDQuestionID (userID questionID : string) (ids : list string)
    (err : option errors.error)
| ERemoveAnswer (req : schema.RemoveAnswerReq.t) (err : option errors.error)
| EInsert (req : schema.AnswerAddReq.t) (answerID : string) (err : option errors.error)
| EUpdate (req : schema.AnswerUpdateReq.t) (err : option errors.error)
| EGet (answerID userID : string) (info : schema.AnswerInfo.t)
    (question : schema.QuestionInfoResp.t) (has : bool) (err : option errors.error)
| EAdminSetAnswerStatus (req : schema.AdminUpdateAnswerStatusReq.t)
    (err : option errors.error)
| EHandleResponse (err : option errors.error) (data : RespData).

(** ** The handler monad *)

(** How a piece of a Go function body ends: it falls through to the next
    statement with a value, it executes [return], or it panics. *)
Inductive flow (A : Type) : Type :=
| Next (a : A)
| Return
| Panic.
Arguments Return {A}.
Arguments Panic {A}.

Definition M (W A : Type) : Type := W → flow A * W * list event.

Global Instance M_ret {W} : MRet (M W) := λ A a w, (Next a, w, []).

Global Instance M_bind {W} : MBind (M W) := λ A B f m w,
  match m w with
  | (Next a, w1, t1) => match f a w1 with (r, w2, t2) => (r, w2, t1 ++ t2) end
  | (Return, w1, t1) => (Return, w1, t1)
  | (Panic, w1, t1) => (Panic, w1, t1)
  end.

(** A call of an operation that changes the state, logged with its result. *)
Definition call {W A} (op : W → A * W) (ev : A → event) : M W A :=
  λ w, match op w with (a, w1) => (Next a, w1, [ev a]) end.

(** A call that only reads, logged. *)
Definition observe {W A} (op : W → A) (ev : A → event) : M W A :=
  λ w, (Next (op w), w, [ev (op w)]).

(** A call that only reads, not logged. *)
Definition peek {W A} (op : W → A) : M W A :=
  λ w, (Next (op w), w, []).

(** A call that returns nothing. *)
Definition perform {W} (op : W → W) (ev : event) : M W unit :=
  λ w, (Next tt, op w, [ev]).

(** Go's [return]. *)
Definition exit {W A} : M W A := λ w, (Return, w, []).

(** Go's [s[i]]: panics when [i] is out of range. *)
Definition index {W A} (s : list A) (i : nat) : M W A :=
  λ w, match s !! i with
       | Some a => (Next a, w, [])
       | None => (Panic, w, [])
       end.

(** Go's [defer d] followed by the rest of the body: [d] runs when the rest
    has ended, whether it fell off the end, returned or panicked, and the
    function then ends the way the rest did. *)
Definition defer {W A} (d : M W unit) (rest : M W A) : M W A :=
  λ w, match rest w with
       | (r, w1, t1) => match d w1 with (_, w2, t2) => (r, w2, t1 ++ t2) end
       end.

(** Go's [if cond { body }] with nothing after [else]. *)
Definition when {W} (cond : bool) (body : M W unit) : M W unit :=
  if cond then body else mret tt.

(** Go's [err != nil]. *)
Definition notnil {A} (err : option A) : bool :=
  if err is Some _ then true else false.

(** The log of a run, and the way it ended. *)
Definition trace {W A} (m : M W A) (w : W) : list event := (m w).2.
Definition outcome {W A} (m : M W A) (w : W) : flow A := (m w).1.1.

(** The state a run leaves. *)
Definition final {W A} (m : M W A) (w : W) : W := (m w).1.2.

(** ** The controller *)

Section controller.
Context {W : Type} (ac : AnswerController W) (pk : Packages W).

(** *** Calls into the collaborators, each leaving its event *)

Definition BindAndCheck {R} (bind : W → (bool * R) * W) : M W (bool * R) :=
  call bind (λ r, EBindAndCheck r.1).

Definition HandleResponse (err : option errors.error) (data : RespData) : M W unit :=
  perform (handler.HandleResponse (pkg_handler pk) err data) (EHandleResponse err data).

Definition GetLang : M W string := peek (handler.GetLang (pkg_handler pk)).

Definition GetLoginUserIDFromContext : M W string :=
  observe (middleware.GetLoginUserIDFromContext (pkg_middleware pk))
          EGetLoginUserIDFromContext.

Definition GetUserIsAdminModerator : M W bool :=
  observe (middleware.GetUserIsAdminModerator (pkg_middleware pk))
          EGetUserIsAdminModerator.

Definition GetHeader (key : string) : M W string :=
  peek (gin.GetHeader (pkg_gin pk) key).

Definition ClientIP : M W string := peek (gin.ClientIP (pkg_gin pk)).

Definition Writer_Status : M W Z := observe (gin.Writer_Status (pkg_gin pk)) EWriterStatus.

Definition GetAnswerPermission (userID creatorUserID : string) (status : Z)
    (canEdit canDelete canRecover : bool) : M W (list permission.MemberAction) :=
  peek (λ w, permission_GetAnswerPermission pk w userID creatorUserID status
               canEdit canDelete canRecover).

Definition DuplicateRequestRejection (req : schema.AnswerAddReq.t) : M W (bool * string) :=
  call (middleware.DuplicateRequestRejection (rateLimitMiddleware ac) req)
       (λ r, EDuplicateRequestRejection req r.1 r.2).

Definition DuplicateRequestClear (key : string) : M W unit :=
  perform (middleware.DuplicateRequestClear (rateLimitMiddleware ac) key)
          (EDuplicateRequestClear key).

Definition CheckOperationPermissions (userID : string) (actions : list permission.Action)
    : M W (list bool * option errors.error) :=
  call (rank.CheckOperationPermissions (rankService ac) userID actions)
       (λ r, ECheckOperationPermissions userID actions r.1 r.2).

Definition CheckOperationPermission (userID : string) (act : permission.Action)
    (objectID : string) : M W (bool * option errors.error) :=
  call (rank.CheckOperationPermission (rankService ac) userID act objectID)
       (λ r, ECheckOperationPermission userID act objectID r.1 r.2).

Definition CheckOperationObjectOwner (userID objectID : string) : M W bool :=
  call (rank.CheckOperationObjectOwner (rankService ac) userID objectID)
       (ECheckOperationObjectOwner userID objectID).

Definition ActionRecordVerifyCaptcha (kind : entity.CaptchaAction)
    (userID captchaID captchaCode : string) : M W bool :=
  call (action.ActionRecordVerifyCaptcha (actionService ac) kind userID captchaID captchaCode)
       (EActionRecordVerifyCaptcha kind userID captchaID captchaCode).

Definition ActionRecordAdd (kind : entity.CaptchaAction) (userID : string) : M W unit :=
  perform (action.ActionRecordAdd (actionService ac) kind userID)
          (EActionRecordAdd kind userID).

Definition GetSiteWrite : M W (schema.SiteWriteResp.t * option errors.error) :=
  call (siteinfo_common.GetSiteWrite (siteInfoCommonService ac))
       (λ r, EGetSiteWrite r.1 r.2).

Definition answerService_GetCountByUserIDQuestionID (userID questionID : string)
    : M W (list string * option errors.error) :=
  call (content.GetCountByUserIDQuestionID (answerService ac) userID questionID)
       (λ r, EGetCountByUserIDQuestionID userID questionID r.1 r.2).

Definition answerService_RemoveAnswer (req : schema.RemoveAnswerReq.t)
    : M W (option errors.error) :=
  call (content.RemoveAnswer (answerService ac) req) (ERemoveAnswer req).

Definition answerService_Insert (req : schema.AnswerAddReq.t)
    : M W (string * option errors.error) :=
  call (content.Insert (answerService ac) req) (λ r, EInsert req r.1 r.2).

Definition answerService_Update (req : schema.AnswerUpdateReq.t)
    : M W (string * option errors.error) :=
  call (content.Update (answerService ac) req) (λ r, EUpdate req r.2).

Definition answerService_Get (answerID userID : string)
    : M W (schema.AnswerInfo.t * schema.QuestionInfoResp.t * bool * option errors.error) :=
  call (content.Get (answerService ac) answerID userID)
       (λ r, EGet answerID userID r.1.1.1 r.1.1.2 r.1.2 r.2).

Definition answerService_AdminSetAnswerStatus (req : schema.AdminUpdateAnswerStatusReq.t)
    : M W (option errors.error) :=
  call (content.AdminSetAnswerStatus (answerService ac) req) (EAdminSetAnswerStatus req).

(** *** The handlers *)

(** The three handlers answer a failed captcha with the same statements:
    [errFields := append([]*validator.FormErrorField{}, ...)] and
    [handler.HandleResponse(ctx, errors.BadRequest(...), errFields)]. *)
Definition respondCaptchaVerificationFailed : M W unit :=
  lang ← GetLang;
  let errFields :=
    [] ++ [ {| validator.ErrorField := "captcha_code";
               validator.ErrorMsg :=
                 translator_Tr pk lang reason.CaptchaVerificationFailed |} ] in
  HandleResponse (Some (errors.BadRequest reason.CaptchaVerificationFailed))
                 (ErrFields errFields).

(** [func (ac *AnswerController) RemoveAnswer(ctx *gin.Context)] *)
Definition RemoveAnswer : M W unit :=
  '(failed, req) ← BindAndCheck (handler.BindAndCheck_RemoveAnswerReq (pkg_handler pk));
  when failed exit;;
  let req := schema.RemoveAnswerReq.with_ID
               (uid_DeShortID pk (schema.RemoveAnswerReq.ID req)) req in
  userID ← GetLoginUserIDFromContext;
  let req := schema.RemoveAnswerReq.with_UserID userID req in
  isAdmin ← GetUserIsAdminModerator;
  when (negb isAdmin) (
    captchaPass ← ActionRecordVerifyCaptcha entity.CaptchaActionDelete
                    (schema.RemoveAnswerReq.UserID req)
                    (schema.RemoveAnswerReq.CaptchaID req)
                    (schema.RemoveAnswerReq.CaptchaCode req);
    when (negb captchaPass) (respondCaptchaVerificationFailed;; exit));;
  objectOwner ← CheckOperationObjectOwner (schema.RemoveAnswerReq.UserID req)
                                          (schema.RemoveAnswerReq.ID req);
  '(canList, err) ← CheckOperationPermissions (schema.RemoveAnswerReq.UserID req)
                      [permission.AnswerDelete];
  when (notnil err) (HandleResponse err NoData;; exit);;
  can0 ← index canList 0;
  let req := schema.RemoveAnswerReq.with_CanDelete (can0 || objectOwner) req in
  when (negb (schema.RemoveAnswerReq.CanDelete req)) (
    HandleResponse (Some (errors.Forbidden reason.RankFailToMeetTheCondition)) NoData;;
    exit);;
  err ← answerService_RemoveAnswer req;
  when (negb isAdmin) (
    ActionRecordAdd entity.CaptchaActionDelete (schema.RemoveAnswerReq.UserID req));;
  HandleResponse err NoData.

(** [func (ac *AnswerController) AddAnswer(ctx *gin.Context)] *)
Definition AddAnswer : M W unit :=
  '(failed, req) ← BindAndCheck (handler.BindAndCheck_AnswerAddReq (pkg_handler pk));
  when failed exit;;
  '(reject, rejectKey) ← DuplicateRequestRejection req;
  when reject exit;;
  defer
    (* If status is not 200 means that the bad request has been returned,
       so the record should be cleared *)
    (status ← Writer_Status;
     when (negb (status =? http.StatusOK)) (DuplicateRequestClear rejectKey))
    (let req := schema.AnswerAddReq.with_QuestionID
                  (uid_DeShortID pk (schema.AnswerAddReq.QuestionID req)) req in
     userID ← GetLoginUserIDFromContext;
     let req := schema.AnswerAddReq.with_UserID userID req in
     '(canList, err) ← CheckOperationPermissions (schema.AnswerAddReq.UserID req)
                         [permission.AnswerEdit; permission.AnswerDelete;
                          permission.LinkUrlLimit];
     when (notnil err) (HandleResponse err NoData;; exit);;
     linkUrlLimitUser ← index canList 2;
     isAdmin ← GetUserIsAdminModerator;
     when (negb isAdmin || negb linkUrlLimitUser) (
       captchaPass ← ActionRecordVerifyCaptcha entity.CaptchaActionAnswer
                       (schema.AnswerAddReq.UserID req)
                       (schema.AnswerAddReq.CaptchaID req)
                       (schema.AnswerAddReq.CaptchaCode req);
       when (negb captchaPass) (respondCaptchaVerificationFailed;; exit));;
     '(can, err) ← CheckOperationPermission (schema.AnswerAddReq.UserID req)
                     permission.AnswerAdd "";
     when (notnil err) (HandleResponse err NoData;; exit);;
     when (negb can) (
       HandleResponse (Some (errors.Forbidden reason.RankFailToMeetTheCondition)) NoData;;
       exit);;
     '(write, err) ← GetSiteWrite;
     when (notnil err) (HandleResponse err NoData;; exit);;
     when (schema.SiteWriteResp.RestrictAnswer write) (
       (* check if there's already an answer by this user *)
       '(ids, err) ← answerService_GetCountByUserIDQuestionID
                       (schema.AnswerAddReq.UserID req)
                       (schema.AnswerAddReq.QuestionID req);
       when (notnil err) (HandleResponse err NoData;; exit);;
       when (1 <=? length ids)%nat (
         HandleResponse (Some (errors.Forbidden reason.AnswerRestrictAnswer)) NoData;;
         exit));;
     userAgent ← GetHeader "User-Agent";
     let req := schema.AnswerAddReq.with_UserAgent userAgent req in
     ip ← ClientIP;
     let req := schema.AnswerAddReq.with_IP ip req in
     '(answerID, err) ← answerService_Insert req;
     when (notnil err) (HandleResponse err NoData;; exit);;
     when (negb isAdmin || negb linkUrlLimitUser) (
       ActionRecordAdd entity.CaptchaActionAnswer (schema.AnswerAddReq.UserID req));;
     '(info, questionInfo, has, err) ← answerService_Get answerID
                                          (schema.AnswerAddReq.UserID req);
     when (notnil err) (HandleResponse err NoData;; exit);;
     when (negb has) (HandleResponse None NoData;; exit);;
     objectOwner ← CheckOperationObjectOwner (schema.AnswerAddReq.UserID req)
                                             (schema.AnswerInfo.ID info);
     can0 ← index canList 0;
     let req := schema.AnswerAddReq.with_CanEdit (can0 || objectOwner) req in
     can1 ← index canList 1;
     let req := schema.AnswerAddReq.with_CanDelete (can1 || objectOwner) req in
     memberActions ← GetAnswerPermission (schema.AnswerAddReq.UserID req)
                       (schema.AnswerInfo.UserID info) 0
                       (schema.AnswerAddReq.CanEdit req)
                       (schema.AnswerAddReq.CanDelete req) false;
     let info := schema.AnswerInfo.with_MemberActions memberActions info in
     HandleResponse None (InfoAndQuestion info questionInfo)).

(** [func (ac *AnswerController) UpdateAnswer(ctx *gin.Context)] *)
Definition UpdateAnswer : M W unit :=
  '(failed, req) ← BindAndCheck (handler.BindAndCheck_AnswerUpdateReq (pkg_handler pk));
  when failed exit;;
  userID ← GetLoginUserIDFromContext;
  let req := schema.AnswerUpdateReq.with_UserID userID req in
  '(canList, err) ← CheckOperationPermissions (schema.AnswerUpdateReq.UserID req)
                      [permission.AnswerEdit; permission.AnswerEditWithoutReview;
                       permission.LinkUrlLimit];
  when (notnil err) (HandleResponse err NoData;; exit);;
  let req := schema.AnswerUpdateReq.with_QuestionID
               (uid_DeShortID pk (schema.AnswerUpdateReq.QuestionID req)) req in
  linkUrlLimitUser ← index canList 2;
  isAdmin ← GetUserIsAdminModerator;
  when (negb isAdmin || negb linkUrlLimitUser) (
    captchaPass ← ActionRecordVerifyCaptcha entity.CaptchaActionEdit
                    (schema.AnswerUpdateReq.UserID req)
                    (schema.AnswerUpdateReq.CaptchaID req)
                    (schema.AnswerUpdateReq.CaptchaCode req);
    when (negb captchaPass) (respondCaptchaVerificationFailed;; exit));;
  objectOwner ← CheckOperationObjectOwner (schema.AnswerUpdateReq.UserID req)
                                          (schema.AnswerUpdateReq.ID req);
  can0 ← index canList 0;
  let req := schema.AnswerUpdateReq.with_CanEdit (can0 || objectOwner) req in
  can1 ← index canList 1;
  let req := schema.AnswerUpdateReq.with_NoNeedReview (can1 || objectOwner) req in
  when (negb (schema.AnswerUpdateReq.CanEdit req)) (
    HandleResponse (Some (errors.Forbidden reason.RankFailToMeetTheCondition)) NoData;;
    exit);;
  '(_, err) ← answerService_Update req;
  when (notnil err) (HandleResponse err NoData;; exit);;
  when (negb isAdmin || negb linkUrlLimitUser) (
    ActionRecordAdd entity.CaptchaActionEdit (schema.AnswerUpdateReq.UserID req));;
  '(_, _, _, err) ← answerService_Get (schema.AnswerUpdateReq.ID req)
                                      (schema.AnswerUpdateReq.UserID req);
  when (notnil err) (HandleResponse err NoData;; exit);;
  HandleResponse None
    (AnswerUpdateResp (negb (schema.AnswerUpdateReq.NoNeedReview req))).

(** [func (ac *AnswerController) AdminUpdateAnswerStatus(ctx *gin.Context)] *)
Definition AdminUpdateAnswerStatus : M W unit :=
  '(failed, req) ← BindAndCheck
                     (handler.BindAndCheck_AdminUpdateAnswerStatusReq (pkg_handler pk));
  when failed exit;;
  let req := schema.AdminUpdateAnswerStatusReq.with_AnswerID
               (uid_DeShortID pk (schema.AdminUpdateAnswerStatusReq.AnswerID req)) req in
  userID ← GetLoginUserIDFromContext;
  let req := schema.AdminUpdateAnswerStatusReq.with_UserID userID req in
  err ← answerService_AdminSetAnswerStatus req;
  HandleResponse err NoData.

End controller.

(** ** Reading a log *)

(** The steps of the gating sequence a call belongs to. The ownership lookup
    and the reads of the gin context are inputs to the gating layer, not
    steps of it. *)
Inductive gate : Type :=
| Suppress          (* Duplicate Suppressor: admit or reject *)
| Authorize         (* Permission Evaluator *)
| Challenge         (* Challenge Gate: verification *)
| Mutate            (* the domain mutation *)
| RecordAttempt     (* Challenge Gate: attempt record *)
| Release.          (* Duplicate Suppressor: release *)

Definition gate_of (e : event) : option gate :=
  match e with
  | EDuplicateRequestRejection _ _ _ => Some Suppress
  | ECheckOperationPermissions _ _ _ _ => Some Authorize
  | ECheckOperationPermission _ _ _ _ _ => Some Authorize
  | EActionRecordVerifyCaptcha _ _ _ _ _ => Some Challenge
  | ERemoveAnswer _ _ => Some Mutate
  | EInsert _ _ _ => Some Mutate
  | EUpdate _ _ => Some Mutate
  | EAdminSetAnswerStatus _ _ => Some Mutate
  | EActionRecordAdd _ _ => Some RecordAttempt
  | EDuplicateRequestClear _ => Some Release
  | _ => None
  end.

Definition gates (t : list event) : list gate := omap gate_of t.

(** The order suppress, authorize, challenge, mutate, update-challenge,
    release-on-failure. *)
Definition sequence_rank (g : gate) : nat :=
  match g with
  | Suppress => 0
  | Authorize => 1
  | Challenge => 2
  | Mutate => 3
  | RecordAttempt => 4
  | Release => 5
  end.

(** The same order with challenge verification ahead of permission
    evaluation. *)
Definition challenge_first_rank (g : gate) : nat :=
  match g with
  | Suppress => 0
  | Challenge => 1
  | Authorize => 2
  | Mutate => 3
  | RecordAttempt => 4
  | Release => 5
  end.

(** The same order with permission evaluation and challenge verification
    not ordered between themselves. *)
Definition interleaved_rank (g : gate) : nat :=
  match g with
  | Suppress => 0
  | Authorize => 1
  | Challenge => 1
  | Mutate => 2
  | RecordAttempt => 3
  | Release => 4
  end.

(** No step is performed before a step that [rank] puts earlier. *)
Definition follows (rank : gate → nat) (t : list event) : Prop :=
  StronglySorted Nat.le (rank <$> gates t).

(** A call of one of the three gating components, or of the ownership
    lookup that feeds the permission decision. *)
Definition gating_call (e : event) : bool :=
  match e with
  | EDuplicateRequestRejection _ _ _ | EDuplicateRequestClear _
  | ECheckOperationPermissions _ _ _ _ | ECheckOperationPermission _ _ _ _ _
  | ECheckOperationObjectOwner _ _ _
  | EActionRecordVerifyCaptcha _ _ _ _ _ | EActionRecordAdd _ _ => true
  | _ => false
  end.

(** *** What the log shows of each kind of call, in order *)

(** Whether [handler.BindAndCheck] failed. *)
Definition bindings (t : list event) : list bool :=
  omap (λ e, if e is EBindAndCheck failed then Some failed else None) t.

(** The verdicts of the Duplicate Suppressor, with the key of the record. *)
Definition suppressions (t : list event) : list (bool * string) :=
  omap (λ e, if e is EDuplicateRequestRejection _ reject key
             then Some (reject, key) else None) t.

(** The duplicate records released. *)
Definition releases (t : list event) : list string :=
  omap (λ e, if e is EDuplicateRequestClear key then Some key else None) t.

(** The values read of the admin/moderator flag. *)
Definition admin_reads (t : list event) : list bool :=
  omap (λ e, if e is EGetUserIsAdminModerator isAdmin then Some isAdmin else None) t.

(** The results of the batch permission check. *)
Definition batch_checks (t : list event) : list (list bool * option errors.error) :=
  omap (λ e, if e is ECheckOperationPermissions _ _ can err
             then Some (can, err) else None) t.

(** The results of the single permission check, with the action asked. *)
Definition single_checks (t : list event)
    : list (permission.Action * bool * option errors.error) :=
  omap (λ e, if e is ECheckOperationPermission _ act _ can err
             then Some (act, can, err) else None) t.

(** The answers of the ownership lookup. *)
Definition owner_lookups (t : list event) : list bool :=
  omap (λ e, if e is ECheckOperationObjectOwner _ _ owner then Some owner else None) t.

(** The captcha verifications demanded, with their verdicts. *)
Definition verifications (t : list event) : list (entity.CaptchaAction * bool) :=
  omap (λ e, if e is EActionRecordVerifyCaptcha kind _ _ _ pass
             then Some (kind, pass) else None) t.

(** The attempts recorded with the captcha service. *)
Definition records (t : list event) : list (entity.CaptchaAction * string) :=
  omap (λ e, if e is EActionRecordAdd kind userID then Some (kind, userID) else None) t.

(** The site write configuration as it was read. *)
Definition site_writes (t : list event)
    : list (schema.SiteWriteResp.t * option errors.error) :=
  omap (λ e, if e is EGetSiteWrite write err then Some (write, err) else None) t.

(** The answers the user already has on the question, as they were found. *)
Definition count_lookups (t : list event) : list (list string * option errors.error) :=
  omap (λ e, if e is EGetCountByUserIDQuestionID _ _ ids err
             then Some (ids, err) else None) t.

(** The domain mutations invoked. *)
Definition mutations (t : list event) : list event :=
  omap (λ e, if gate_of e is Some Mutate then Some e else None) t.

(** What was handed to [handler.HandleResponse]. *)
Definition responses (t : list event) : list (option errors.error * RespData) :=
  omap (λ e, if e is EHandleResponse err data then Some (err, data) else None) t.

(** The Duplicate Suppressor admitted the request. *)
Definition is_admission (e : event) : bool :=
  if e is EDuplicateRequestRejection _ false _ then true else false.

(** The admin/moderator flag was read. *)
Definition is_admin_read (e : event) : bool :=
  if e is EGetUserIsAdminModerator _ then true else false.

(** Every event satisfying [q] has an event satisfying [p] before it. *)
Fixpoint preceded (p q : event → bool) (t : list event) : bool :=
  match t with
  | [] => true
  | e :: t' => negb (q e) && (p e || preceded p q t')
  end.

(** The log up to the first reading of the response writer's status. *)
Fixpoint before_status (t : list event) : list event :=
  match t with
  | [] => []
  | EWriterStatus _ :: _ => []
  | e :: t' => e :: before_status t'
  end.

(** *** The steps of a handler, call by call

    Finer than [gate]: the batch and the single permission check are told
    apart, and the ownership lookup, on which the permission decision of
    [RemoveAnswer] and [UpdateAnswer] rests, is a step of its own. *)
Inductive stage : Type :=
| Admission         (* middleware.DuplicateRequestRejection *)
| BatchLookup       (* rankService.CheckOperationPermissions *)
| SingleCheck       (* rankService.CheckOperationPermission *)
| OwnerLookup       (* rankService.CheckOperationObjectOwner *)
| Verification      (* actionService.ActionRecordVerifyCaptcha *)
| Mutation          (* the domain mutation *)
| AttemptRecord     (* actionService.ActionRecordAdd *)
| Releasing.        (* middleware.DuplicateRequestClear *)

Definition stage_of (e : event) : option stage :=
  match e with
  | EDuplicateRequestRejection _ _ _ => Some Admission
  | ECheckOperationPermissions _ _ _ _ => Some BatchLookup
  | ECheckOperationPermission _ _ _ _ _ => Some SingleCheck
  | ECheckOperationObjectOwner _ _ _ => Some OwnerLookup
  | EActionRecordVerifyCaptcha _ _ _ _ _ => Some Verification
  | ERemoveAnswer _ _ => Some Mutation
  | EInsert _ _ _ => Some Mutation
  | EUpdate _ _ => Some Mutation
  | EAdminSetAnswerStatus _ _ => Some Mutation
  | EActionRecordAdd _ _ => Some AttemptRecord
  | EDuplicateRequestClear _ => Some Releasing
  | _ => None
  end.

Definition stages (t : list event) : list stage := omap stage_of t.

(** The handler answered that the rank does not meet the condition. *)
Definition is_denial (e : event) : bool :=
  match e with
  | EHandleResponse (Some (errors.New code reason.RankFailToMeetTheCondition)) _ =>
      code =? errors.StatusForbidden
  | _ => false
  end.

(** What the log holds after the first such answer, if there is one. *)
Fixpoint after_denial (t : list event) : option (list event) :=
  match t with
  | [] => None
  | e :: t' => if is_denial e then Some t' else after_denial t'
  end.

(** *** What the properties speak of *)

(** The handler answered [Forbidden] with [r] and nothing else, invoked no
    domain mutation and recorded no attempt. *)
Definition refused (r : reason.Reason) (t : list event) : Prop :=
  responses t = [(Some (errors.Forbidden r), NoData)]
  ∧ mutations t = [] ∧ records t = [].

(** The permission decision of [RemoveAnswer] and [UpdateAnswer] is
    [canList[0] || objectOwner]: it denies when the batch check came back
    without error and with [false] in front, and the ownership lookup said
    no. *)
Definition decision_denies (t : list event) : Prop :=
  ∃ can, (can, None) ∈ batch_checks t
         ∧ can !! 0%nat = Some false
         ∧ false ∈ owner_lookups t.

(** The permission decision of [AddAnswer] is the single check of
    [permission.AnswerAdd]. *)
Definition add_denies (t : list event) : Prop :=
  (permission.AnswerAdd, false, None) ∈ single_checks t.

(** The captcha verification was demanded and passed. *)
Definition challenge_passed (t : list event) : Prop :=
  ∃ kind, (kind, true) ∈ verifications t.

(** The attempt is recorded exactly once whenever the verification passed
    and the domain mutation was invoked, whatever it returned. *)
Definition recorded_once_whatever_the_outcome (t : list event) : Prop :=
  challenge_passed t → mutations t ≠ [] → length (records t) = 1%nat.

(** ** The Permission Evaluator *)

Module evaluator.

(** The configured thresholds of one action: the minimum rank to act on
    the objects of others, and the optional lower one for the owner. *)
Record Rule : Type := { othersThreshold : Z; ownerThreshold : option Z }.

Inductive decision : Type :=
| Permit
| Deny
| ConfigurationMissing.

(** Callers treat everything but [Permit] as a denial. *)
Definition permits (d : decision) : bool :=
  match d with
  | Permit => true
  | Deny | ConfigurationMissing => false
  end.

Section evaluator.
Context `{Countable K}.

(** Modelled from the spec: the single permission check of the rank
    service, whose code is not in the controller file. Look up the
    configured rank threshold of the action; an admin is permitted; else
    the owner is permitted when an owner threshold is configured and the
    rank reaches it; else the rank has to reach the threshold for others;
    an action without a configured threshold signals
    [ConfigurationMissing] for whoever is not an admin. *)
Definition Evaluate (cfg : gmap K Rule) (userRank : Z) (act : K)
    (isOwner isAdmin : bool) : decision :=
  let rule := cfg !! act in
  if isAdmin then Permit
  else match rule with
       | None => ConfigurationMissing
       | Some r =>
           if isOwner && (if ownerThreshold r is Some ownerT
                          then bool_decide (ownerT ≤ userRank) else false)
           then Permit
           else if bool_decide (othersThreshold r ≤ userRank) then Permit
           else Deny
       end.

(** The batch form goes through the actions in the order given and
    appends one verdict per action to [can]. *)
Fixpoint EvaluateMany_loop (cfg : gmap K Rule) (userRank : Z)
    (isOwner isAdmin : bool) (actions : list K) (can : list bool) : list bool :=
  match actions with
  | [] => can
  | act :: rest =>
      EvaluateMany_loop cfg userRank isOwner isAdmin rest
        (can ++ [permits (Evaluate cfg userRank act isOwner isAdmin)])
  end.

(** Modelled from the spec: the batch permission check of the rank
    service ([CheckOperationPermissions]), whose code is not in the
    controller file: one boolean per action, in the order of the input. *)
Definition EvaluateMany (cfg : gmap K Rule) (userRank : Z)
    (actions : list K) (isOwner isAdmin : bool) : list bool :=
  EvaluateMany_loop cfg userRank isOwner isAdmin actions [].
End evaluator.

End evaluator.

Global Instance permission_Action_eq_dec : EqDecision permission.Action.
Proof. solve_decision. Defined.

Definition permission_Action_code (a : permission.Action) : nat :=
  match a with
  | permission.AnswerAdd => 0
  | permission.AnswerEdit => 1
  | permission.AnswerEditWithoutReview => 2
  | permission.AnswerDelete => 3
  | permission.AnswerUnDelete => 4
  | permission.AnswerAccept => 5
  | permission.LinkUrlLimit => 6
  end.

Definition permission_Action_of_code (n : nat) : option permission.Action :=
  match n with
  | 0 => Some permission.AnswerAdd
  | 1 => Some permission.AnswerEdit
  | 2 => Some permission.AnswerEditWithoutReview
  | 3 => Some permission.AnswerDelete
  | 4 => Some permission.AnswerUnDelete
  | 5 => Some permission.AnswerAccept
  | 6 => Some permission.LinkUrlLimit
  | _ => None
  end%nat.

Global Instance permission_Action_countable : Countable permission.Action.
Proof.
  apply (inj_countable permission_Action_code permission_Action_of_code).
  by intros [].
Defined.

(** ** A scripted world

    One inhabitant of the interfaces, to run the handlers on: every
    collaborator answers what the script says, and [handler.HandleResponse]
    leaves the status of its answer in the response writer. *)

Module script.

Record World : Type := {
  status : Z;                     (* ctx.Writer.Status() *)
  bind_failed : bool;
  login : string;
  admin : bool;
  duplicate : bool;
  batch : list permission.Action → list bool;
  single : permission.Action → bool;
  owner : bool;
  captcha_pass : bool;
  restrict_answer : bool;
  answer_ids : list string;
  mutation_err : option errors.error;
  has : bool }.

Definition with_status (v : Z) (w : World) : World :=
  {| status := v; bind_failed := bind_failed w; login := login w; admin := admin w;
     duplicate := duplicate w; batch := batch w; single := single w;
     owner := owner w; captcha_pass := captcha_pass w;
     restrict_answer := restrict_answer w; answer_ids := answer_ids w;
     mutation_err := mutation_err w; has := has w |}.

Definition status_of (err : option errors.error) : Z :=
  match err with
  | None => http.StatusOK
  | Some (errors.New code _) => code
  | Some (errors.Plain _) => 500
  end.

Definition bind {R} (req : R) (w : World) : (bool * R) * World :=
  if bind_failed w then ((true, req), with_status errors.StatusBadRequest w)
  else ((false, req), w).

Definition removeReq : schema.RemoveAnswerReq.t :=
  {| schema.RemoveAnswerReq.ID := "a1"; schema.RemoveAnswerReq.UserID := "";
     schema.RemoveAnswerReq.CanDelete := false;
     schema.RemoveAnswerReq.CaptchaID := "c1";
     schema.RemoveAnswerReq.CaptchaCode := "xyz" |}.

Definition addReq : schema.AnswerAddReq.t :=
  {| schema.AnswerAddReq.QuestionID := "q1"; schema.AnswerAddReq.Content := "text";
     schema.AnswerAddReq.UserID := ""; schema.AnswerAddReq.CanEdit := false;
     schema.AnswerAddReq.CanDelete := false; schema.AnswerAddReq.CaptchaID := "c1";
     schema.AnswerAddReq.CaptchaCode := "xyz"; schema.AnswerAddReq.IP := "";
     schema.AnswerAddReq.UserAgent := "" |}.

Definition updateReq : schema.AnswerUpdateReq.t :=
  {| schema.AnswerUpdateReq.ID := "a1"; schema.AnswerUpdateReq.QuestionID := "q1";
     schema.AnswerUpdateReq.Content := "text"; schema.AnswerUpdateReq.UserID := "";
     schema.AnswerUpdateReq.NoNeedReview := false;
     schema.AnswerUpdateReq.CanEdit := false;
     schema.AnswerUpdateReq.CaptchaID := "c1";
     schema.AnswerUpdateReq.CaptchaCode := "xyz" |}.

Definition statusReq : schema.AdminUpdateAnswerStatusReq.t :=
  {| schema.AdminUpdateAnswerStatusReq.AnswerID := "a1";
     schema.AdminUpdateAnswerStatusReq.Status := "deleted";
     schema.AdminUpdateAnswerStatusReq.UserID := "" |}.

Definition info : schema.AnswerInfo.t :=
  {| schema.AnswerInfo.ID := "a2"; schema.AnswerInfo.UserID := "u1";
     schema.AnswerInfo.Content := "text"; schema.AnswerInfo.MemberActions := [] |}.

Definition question : schema.QuestionInfoResp.t :=
  {| schema.QuestionInfoResp.ID := "q1"; schema.QuestionInfoResp.Title := "title" |}.

Definition ac : AnswerController World :=
  {| answerService :=
       {| content.RemoveAnswer := λ _ w, (mutation_err w, w);
          content.Insert := λ _ w, (("a2", mutation_err w), w);
          content.Update := λ _ w, (("", mutation_err w), w);
          content.Get := λ _ _ w, ((info, question, has w, None), w);
          content.GetCountByUserIDQuestionID := λ _ _ w, ((answer_ids w, None), w);
          content.AdminSetAnswerStatus := λ _ w, (mutation_err w, w) |};
     rankService :=
       {| rank.CheckOperationPermissions := λ _ actions w, ((batch w actions, None), w);
          rank.CheckOperationPermission := λ _ act _ w, ((single w act, None), w);
          rank.CheckOperationObjectOwner := λ _ _ w, (owner w, w) |};
     actionService :=
       {| action.ActionRecordVerifyCaptcha := λ _ _ _ _ w, (captcha_pass w, w);
          action.ActionRecordAdd := λ _ _ w, w |};
     siteInfoCommonService :=
       {| siteinfo_common.GetSiteWrite := λ w,
            (({| schema.SiteWriteResp.RestrictAnswer := restrict_answer w |}, None), w) |};
     rateLimitMiddleware :=
       {| middleware.DuplicateRequestRejection := λ req w,
            let key := schema.AnswerAddReq.QuestionID req in
            if duplicate w then ((true, key), with_status errors.StatusBadRequest w)
            else ((false, key), w);
          middleware.DuplicateRequestClear := λ _ w, w |} |}.

Definition pk : Packages World :=
  {| pkg_gin :=
       {| gin.GetHeader := λ _ _, "agent"; gin.ClientIP := λ _, "127.0.0.1";
          gin.Writer_Status := status |};
     pkg_handler :=
       {| handler.BindAndCheck_RemoveAnswerReq := bind removeReq;
          handler.BindAndCheck_AnswerAddReq := bind addReq;
          handler.BindAndCheck_AnswerUpdateReq := bind updateReq;
          handler.BindAndCheck_AdminUpdateAnswerStatusReq := bind statusReq;
          handler.HandleResponse := λ err _ w, with_status (status_of err) w;
          handler.GetLang := λ _, "en_US" |};
     pkg_middleware :=
       {| middleware.GetLoginUserIDFromContext := login;
          middleware.GetUserIsAdminModerator := admin |};
     uid_DeShortID := λ s, s;
     translator_Tr := λ _ _, "verification failed";
     permission_GetAnswerPermission := λ _ _ _ _ _ _ _, [] |}.

(** A request of user [u1] whose body binds, on a fresh response writer. *)
Definition world (admin duplicate : bool) (batch : list permission.Action → list bool)
    (single owner captcha_pass restrict_answer : bool) (answer_ids : list string)
    (mutation_err : option errors.error) : World :=
  {| status := http.StatusOK; bind_failed := false; login := "u1"; admin := admin;
     duplicate := duplicate; batch := batch; single := λ _, single; owner := owner;
     captcha_pass := captcha_pass; restrict_answer := restrict_answer;
     answer_ids := answer_ids; mutation_err := mutation_err; has := true |}.

Definition all (b : bool) (actions : list permission.Action) : list bool :=
  (λ _, b) <$> actions.

(** An ordinary user with every permission and a passing captcha. *)
Definition ordinary : World :=
  world false false (all true) true false true false [] None.

(** The rank service answers as the Permission Evaluator does for a user of
    rank [userRank]; whether the user owns the target is what the
    ownership lookup answers. The batch and the single check are asked
    about a user, not an object, so they evaluate with [isOwner = false]. *)
Definition ranked (cfg : gmap permission.Action evaluator.Rule) (userRank : Z)
    (isOwner isAdmin : bool) : World :=
  {| status := http.StatusOK; bind_failed := false; login := "u1"; admin := isAdmin;
     duplicate := false;
     batch := λ actions, evaluator.EvaluateMany cfg userRank actions false isAdmin;
     single := λ act, evaluator.permits (evaluator.Evaluate cfg userRank act false isAdmin);
     owner := isOwner; captcha_pass := true; restrict_answer := false;
     answer_ids := []; mutation_err := None; has := true |}.

End script.

(** ** The mutating handlers, by name *)

(** The handlers that pass a write through the gating layer. *)
Inductive mutating : Type :=
| Removing     (* RemoveAnswer *)
| Adding       (* AddAnswer *)
| Updating.    (* UpdateAnswer *)

Definition handler_of {W} (h : mutating) (ac : AnswerController W) (pk : Packages W)
    : M W unit :=
  match h with
  | Removing => RemoveAnswer ac pk
  | Adding => AddAnswer ac pk
  | Updating => UpdateAnswer ac pk
  end.

(** The order in which each handler goes through the gating steps. *)
Definition observed_rank (h : mutating) : gate → nat :=
  match h with
  | Removing => challenge_first_rank
  | Adding => interleaved_rank
  | Updating => sequence_rank
  end.

(** The steps of each handler in the order of its statements. A run makes
    them in this order, each at most once, as far as it gets. *)
Definition sequence_of (h : mutating) : list stage :=
  match h with
  | Removing =>
      [Verification; OwnerLookup; BatchLookup; Mutation; AttemptRecord]
  | Adding =>
      [Admission; BatchLookup; Verification; SingleCheck; Mutation; AttemptRecord;
       OwnerLookup; Releasing]
  | Updating =>
      [BatchLookup; Verification; OwnerLookup; Mutation; AttemptRecord]
  end.

(** The actions each handler asks the batch permission check about. *)
Definition asked (h : mutating) : list permission.Action :=
  match h with
  | Removing => [permission.AnswerDelete]
  | Adding => [permission.AnswerEdit; permission.AnswerDelete; permission.LinkUrlLimit]
  | Updating => [permission.AnswerEdit; permission.AnswerEditWithoutReview;
                 permission.LinkUrlLimit]
  end.

(** The action whose permission decides whether the handler goes on. *)
Definition deciding (h : mutating) : permission.Action :=
  match h with
  | Removing => permission.AnswerDelete
  | Adding => permission.AnswerAdd
  | Updating => permission.AnswerEdit
  end.

(** The kind under which each handler talks to the captcha service. *)
Definition kind_of (h : mutating) : entity.CaptchaAction :=
  match h with
  | Removing => entity.CaptchaActionDelete
  | Adding => entity.CaptchaActionAnswer
  | Updating => entity.CaptchaActionEdit
  end.

(** The permission check of the handler denied. *)
Definition denies (h : mutating) (t : list event) : Prop :=
  match h with
  | Adding => add_denies t
  | Removing | Updating => decision_denies t
  end.

(** What a mutation returned as its error. *)
Definition error_of (e : event) : option errors.error :=
  match e with
  | ERemoveAnswer _ err | EInsert _ _ err | EUpdate _ err
  | EAdminSetAnswerStatus _ err => err
  | _ => None
  end.

(** How many attempts a handler records once it has invoked its mutation:
    [RemoveAnswer] records whatever the mutation returned, [AddAnswer] and
    [UpdateAnswer] return before the record when the mutation failed. *)
Definition attempts_due (h : mutating) (err : option errors.error) : nat :=
  match h with
  | Removing => 1
  | Adding | Updating => if err is None then 1 else 0
  end.

(** Whether a handler leaves the challenge gate out: [RemoveAnswer] for an
    admin or moderator, [AddAnswer] and [UpdateAnswer] for an admin or
    moderator who also holds [permission.LinkUrlLimit]. *)
Definition exempt (h : mutating) (isAdmin linkUrlLimitUser : bool) : bool :=
  match h with
  | Removing => isAdmin
  | Adding | Updating => isAdmin && linkUrlLimitUser
  end.

(** The batch permission check answers about every action it was asked
    about. *)
Definition batch_is_total {W} (ac : AnswerController W) : Prop :=
  ∀ userID actions w,
    length (rank.CheckOperationPermissions (rankService ac) userID actions w).1.1
    = length actions.

(** Everybody below the threshold for others is refused by [RemoveAnswer],
    unless an admin, or an owner whose rank reaches the owner threshold;
    stated over the worlds in which the rank service answers as the
    Permission Evaluator. *)
Definition owner_needs_owner_threshold : Prop :=
  ∀ (cfg : gmap permission.Action evaluator.Rule) rule userRank isOwner,
    cfg !! permission.AnswerDelete = Some rule →
    userRank < evaluator.othersThreshold rule →
    ¬ (isOwner = true
       ∧ ∃ ownerT, evaluator.ownerThreshold rule = Some ownerT ∧ ownerT ≤ userRank) →
    refused reason.RankFailToMeetTheCondition
      (trace (RemoveAnswer script.ac script.pk)
             (script.ranked cfg userRank isOwner false)).

(** Every request to add an answer is refused with [AnswerRestrictAnswer]
    on a site that restricts a user to one answer per question, when the
    user has an answer on the question already; stated over the scripted
    worlds whose body binds. *)
Definition one_answer_always_enforced : Prop :=
  ∀ w : script.World,
    script.bind_failed w = false →
    script.restrict_answer w = true →
    (1 ≤ length (script.answer_ids w))%nat →
    refused reason.AnswerRestrictAnswer (trace (AddAnswer script.ac script.pk) w).

(** ** Sample requests *)

Module sample.

(** A user with none of the permissions, who does not own the answer. *)
Definition unprivileged : script.World :=
  script.world false false (script.all false) false false true false [] None.

(** The same submission arriving a second time. *)
Definition resubmitted_by_admin : script.World :=
  script.world true true (script.all true) true false true false [] None.

(** An ordinary user whose insertion, update or deletion fails. *)
Definition failing : script.World :=
  script.world false false (script.all true) true false true false []
    (Some (errors.Plain "storage failure")).

(** An admin holding every permission. *)
Definition admin : script.World :=
  script.world true false (script.all true) true false true false [] None.

(** An ordinary user who already answered the question, on a site that
    restricts a user to one answer per question. *)
Definition second_answer : script.World :=
  script.world false false (script.all true) true false true true ["a1"] None.

(** The same user, with a captcha code that does not verify. *)
Definition second_answer_wrong_captcha : script.World :=
  script.world false false (script.all true) true false false true ["a1"] None.

(** Deleting needs rank 100, or rank 30 for the owner. *)
Definition rules : gmap permission.Action evaluator.Rule :=
  {[ permission.AnswerDelete :=
       {| evaluator.othersThreshold := 100; evaluator.ownerThreshold := Some 30 |} ]}.

(** The author of an answer, with rank 10. *)
Definition low_ranked_owner : script.World := script.ranked rules 10 true false.

(** Somebody else with rank 10. *)
Definition low_ranked_stranger : script.World := script.ranked rules 10 false false.

(** An admin with rank 10. *)
Definition low_ranked_admin : script.World := script.ranked rules 10 false true.

End sample.

(** ** The rest of the controller

    [RecoverAnswer], [GetAnswerInfo], [AnswerList] and [AcceptAnswer] call
    three more methods of the answer service, bind three more request
    structs, read the query string and answer with two more kinds of data.
    Their log holds the events above and those of the additional calls. *)

Module schema_rest.
Module RecoverAnswerReq.
Record t : Type := { AnswerID : string; UserID : string }.
Definition with_AnswerID (v : string) (r : t) : t :=
  {| AnswerID := v; UserID := UserID r |}.
Definition with_UserID (v : string) (r : t) : t :=
  {| AnswerID := AnswerID r; UserID := v |}.
End RecoverAnswerReq.

Module AnswerListReq.
Record t : Type := {
  QuestionID : string; Order : string; Page : Z; PageSize : Z; UserID : string;
  CanEdit : bool; CanDelete : bool; CanRecover : bool }.
Definition with_UserID (v : string) (r : t) : t :=
  {| QuestionID := QuestionID r; Order := Order r; Page := Page r;
     PageSize := PageSize r; UserID := v; CanEdit := CanEdit r;
     CanDelete := CanDelete r; CanRecover := CanRecover r |}.
Definition with_QuestionID (v : string) (r : t) : t :=
  {| QuestionID := v; Order := Order r; Page := Page r;
     PageSize := PageSize r; UserID := UserID r; CanEdit := CanEdit r;
     CanDelete := CanDelete r; CanRecover := CanRecover r |}.
Definition with_CanEdit (v : bool) (r : t) : t :=
  {| QuestionID := QuestionID r; Order := Order r; Page := Page r;
     PageSize := PageSize r; UserID := UserID r; CanEdit := v;
     CanDelete := CanDelete r; CanRecover := CanRecover r |}.
Definition with_CanDelete (v : bool) (r : t) : t :=
  {| QuestionID := QuestionID r; Order := Order r; Page := Page r;
     PageSize := PageSize r; UserID := UserID r; CanEdit := CanEdit r;
     CanDelete := v; CanRecover := CanRecover r |}.
Definition with_CanRecover (v : bool) (r : t) : t :=
  {| QuestionID := QuestionID r; Order := Order r; Page := Page r;
     PageSize := PageSize r; UserID := UserID r; CanEdit := CanEdit r;
     CanDelete := CanDelete r; CanRecover := v |}.
End AnswerListReq.

Module AcceptAnswerReq.
Record t : Type := { QuestionID : string; AnswerID : string; UserID : string }.
Definition with_QuestionID (v : string) (r : t) : t :=
  {| QuestionID := v; AnswerID := AnswerID r; UserID := UserID r |}.
Definition with_AnswerID (v : string) (r : t) : t :=
  {| QuestionID := QuestionID r; AnswerID := v; UserID := UserID r |}.
Definition with_UserID (v : string) (r : t) : t :=
  {| QuestionID := QuestionID r; AnswerID := AnswerID r; UserID := v |}.
End AcceptAnswerReq.
End schema_rest.

(** What these handlers hand to [handler.HandleResponse] as [data], besides
    [nil]. *)
Inductive RespDataRest : Type :=
| EmptyH                                    (* gin.H{} *)
| GetAnswerInfoResp (Info : schema.AnswerInfo.t) (Question : schema.QuestionInfoResp.t)
| ListAndCount (list : list schema.AnswerInfo.t) (count : Z).
                                            (* gin.H{"list": list, "count": count} *)

Module content_rest.
Record AnswerService (W : Type) : Type := {
  RecoverAnswer : schema_rest.RecoverAnswerReq.t → W → option errors.error * W;
  SearchList : schema_rest.AnswerListReq.t → W →
               (list schema.AnswerInfo.t * Z * option errors.error) * W;
  AcceptAnswer : schema_rest.AcceptAnswerReq.t → W → option errors.error * W }.
End content_rest.

Module handler_rest.
Record Pkg (W : Type) : Type := {
  BindAndCheck_RecoverAnswerReq : W → (bool * schema_rest.RecoverAnswerReq.t) * W;
  BindAndCheck_AnswerListReq : W → (bool * schema_rest.AnswerListReq.t) * W;
  BindAndCheck_AcceptAnswerReq : W → (bool * schema_rest.AcceptAnswerReq.t) * W;
  HandleResponse : option errors.error → RespDataRest → W → W }.
End handler_rest.

(** What the four handlers need on top of [AnswerController] and
    [Packages]. *)
Record Rest (W : Type) : Type := {
  rest_answerService : content_rest.AnswerService W;
  rest_handler : handler_rest.Pkg W;
  gin_Query : string → W → string }.

Inductive event_rest : Type :=
| Shared (e : event)
| EQuery (key value : string)
| ERecoverAnswer (req : schema_rest.RecoverAnswerReq.t) (err : option errors.error)
| ESearchList (req : schema_rest.AnswerListReq.t) (list : list schema.AnswerInfo.t)
    (count : Z) (err : option errors.error)
| EAcceptAnswer (req : schema_rest.AcceptAnswerReq.t) (err : option errors.error)
| EHandleResponseRest (err : option errors.error) (data : RespDataRest).

(** The handler monad over the longer log. *)
Definition N (W A : Type) : Type := W → flow A * W * list event_rest.

Global Instance N_ret {W} : MRet (N W) := λ A a w, (Next a, w, []).

Global Instance N_bind {W} : MBind (N W) := λ A B f m w,
  match m w with
  | (Next a, w1, t1) => match f a w1 with (r, w2, t2) => (r, w2, t1 ++ t2) end
  | (Return, w1, t1) => (Return, w1, t1)
  | (Panic, w1, t1) => (Panic, w1, t1)
  end.

(** A piece of a handler that only makes the calls above. *)
Definition shared {W A} (m : M W A) : N W A :=
  λ w, match m w with (r, w1, t) => (r, w1, Shared <$> t) end.

Definition call_rest {W A} (op : W → A * W) (ev : A → event_rest) : N W A :=
  λ w, match op w with (a, w1) => (Next a, w1, [ev a]) end.

Definition observe_rest {W A} (op : W → A) (ev : A → event_rest) : N W A :=
  λ w, (Next (op w), w, [ev (op w)]).

Definition perform_rest {W} (op : W → W) (ev : event_rest) : N W unit :=
  λ w, (Next tt, op w, [ev]).

Definition when_rest {W} (cond : bool) (body : N W unit) : N W unit :=
  if cond then body else mret tt.

Definition trace_rest {W A} (m : N W A) (w : W) : list event_rest := (m w).2.
Definition outcome_rest {W A} (m : N W A) (w : W) : flow A := (m w).1.1.

Section controller_rest.
Context {W : Type} (ac : AnswerController W) (pk : Packages W) (rs : Rest W).

Definition Query (key : string) : N W string :=
  observe_rest (gin_Query rs key) (EQuery key).

Definition HandleResponseRest (err : option errors.error) (data : RespDataRest)
    : N W unit :=
  perform_rest (handler_rest.HandleResponse (rest_handler rs) err data)
               (EHandleResponseRest err data).

Definition answerService_RecoverAnswer (req : schema_rest.RecoverAnswerReq.t)
    : N W (option errors.error) :=
  call_rest (content_rest.RecoverAnswer (rest_answerService rs) req) (ERecoverAnswer req).

Definition answerService_SearchList (req : schema_rest.AnswerListReq.t)
    : N W (list schema.AnswerInfo.t * Z * option errors.error) :=
  call_rest (content_rest.SearchList (rest_answerService rs) req)
            (λ r, ESearchList req r.1.1 r.1.2 r.2).

Definition answerService_AcceptAnswer (req : schema_rest.AcceptAnswerReq.t)
    : N W (option errors.error) :=
  call_rest (content_rest.AcceptAnswer (rest_answerService rs) req) (EAcceptAnswer req).

(** [func (ac *AnswerController) RecoverAnswer(ctx *gin.Context)] *)
Definition RecoverAnswer : N W unit :=
  '(failed, req) ← shared (BindAndCheck
                     (handler_rest.BindAndCheck_RecoverAnswerReq (rest_handler rs)));
  when_rest failed (shared exit);;
  let req := schema_rest.RecoverAnswerReq.with_AnswerID
               (uid_DeShortID pk (schema_rest.RecoverAnswerReq.AnswerID req)) req in
  userID ← shared (GetLoginUserIDFromContext pk);
  let req := schema_rest.RecoverAnswerReq.with_UserID userID req in
  '(canList, err) ← shared (CheckOperationPermissions ac
                              (schema_rest.RecoverAnswerReq.UserID req)
                              [permission.AnswerUnDelete]);
  when_rest (notnil err) (shared (HandleResponse pk err NoData);; shared exit);;
  can0 ← shared (index canList 0);
  when_rest (negb can0) (
    shared (HandleResponse pk
              (Some (errors.Forbidden reason.RankFailToMeetTheCondition)) NoData);;
    shared exit);;
  err ← answerService_RecoverAnswer req;
  shared (HandleResponse pk err NoData).

(** [func (ac *AnswerController) GetAnswerInfo(ctx *gin.Context)] *)
Definition GetAnswerInfo : N W unit :=
  id ← Query "id";
  let id := uid_DeShortID pk id in
  userID ← shared (GetLoginUserIDFromContext pk);
  '(info, questionInfo, has, err) ← shared (answerService_Get ac id userID);
  when_rest (notnil err) (HandleResponseRest err EmptyH;; shared exit);;
  when_rest (negb has) (
    HandleResponseRest (Some (errors.Plain "")) EmptyH;;   (* fmt.Errorf("") *)
    shared exit);;
  HandleResponseRest err (GetAnswerInfoResp info questionInfo).

(** [func (ac *AnswerController) AnswerList(ctx *gin.Context)] *)
Definition AnswerList : N W unit :=
  '(failed, req) ← shared (BindAndCheck
                     (handler_rest.BindAndCheck_AnswerListReq (rest_handler rs)));
  when_rest failed (shared exit);;
  userID ← shared (GetLoginUserIDFromContext pk);
  let req := schema_rest.AnswerListReq.with_UserID userID req in
  let req := schema_rest.AnswerListReq.with_QuestionID
               (uid_DeShortID pk (schema_rest.AnswerListReq.QuestionID req)) req in
  '(canList, err) ← shared (CheckOperationPermissions ac
                              (schema_rest.AnswerListReq.UserID req)
                              [permission.AnswerEdit; permission.AnswerDelete;
                               permission.AnswerUnDelete]);
  when_rest (notnil err) (shared (HandleResponse pk err NoData);; shared exit);;
  can0 ← shared (index canList 0);
  let req := schema_rest.AnswerListReq.with_CanEdit can0 req in
  can1 ← shared (index canList 1);
  let req := schema_rest.AnswerListReq.with_CanDelete can1 req in
  can2 ← shared (index canList 2);
  let req := schema_rest.AnswerListReq.with_CanRecover can2 req in
  '(list, count, err) ← answerService_SearchList req;
  when_rest (notnil err) (shared (HandleResponse pk err NoData);; shared exit);;
  HandleResponseRest None (ListAndCount list count).

(** [func (ac *AnswerController) AcceptAnswer(ctx *gin.Context)] *)
Definition AcceptAnswer : N W unit :=
  '(failed, req) ← shared (BindAndCheck
                     (handler_rest.BindAndCheck_AcceptAnswerReq (rest_handler rs)));
  when_rest failed (shared exit);;
  userID ← shared (GetLoginUserIDFromContext pk);
  let req := schema_rest.AcceptAnswerReq.with_UserID userID req in
  let req := schema_rest.AcceptAnswerReq.with_AnswerID
               (uid_DeShortID pk (schema_rest.AcceptAnswerReq.AnswerID req)) req in
  let req := schema_rest.AcceptAnswerReq.with_QuestionID
               (uid_DeShortID pk (schema_rest.AcceptAnswerReq.QuestionID req)) req in
  '(can, err) ← shared (CheckOperationPermission ac
                          (schema_rest.AcceptAnswerReq.UserID req)
                          permission.AnswerAccept
                          (schema_rest.AcceptAnswerReq.QuestionID req));
  when_rest (notnil err) (shared (HandleResponse pk err NoData);; shared exit);;
  when_rest (negb can) (
    shared (HandleResponse pk
              (Some (errors.Forbidden reason.RankFailToMeetTheCondition)) NoData);;
    shared exit);;
  err ← answerService_AcceptAnswer req;
  shared (HandleResponse pk err NoData).

End controller_rest.

(** *** Reading the longer log *)

(** The events of the calls the claims' handlers make too. *)
Definition shared_events (t : list event_rest) : list event :=
  omap (λ e, if e is Shared b then Some b else None) t.

(** The values read from the query string. *)
Definition queries (t : list event_rest) : list (string * string) :=
  omap (λ e, if e is EQuery key value then Some (key, value) else None) t.

(** The calls of [answerService.RecoverAnswer], [SearchList] and
    [AcceptAnswer], with what they were given and the error they returned. *)
Definition recoveries (t : list event_rest)
    : list (schema_rest.RecoverAnswerReq.t * option errors.error) :=
  omap (λ e, if e is ERecoverAnswer req err then Some (req, err) else None) t.

Definition searches (t : list event_rest)
    : list (schema_rest.AnswerListReq.t * option errors.error) :=
  omap (λ e, if e is ESearchList req _ _ err then Some (req, err) else None) t.

Definition acceptances (t : list event_rest)
    : list (schema_rest.AcceptAnswerReq.t * option errors.error) :=
  omap (λ e, if e is EAcceptAnswer req err then Some (req, err) else None) t.

(** Everything handed to [handler.HandleResponse], in order. *)
Definition answers (t : list event_rest)
    : list (option errors.error * (RespData + RespDataRest)) :=
  omap (λ e, match e with
             | Shared (EHandleResponse err data) => Some (err, inl data)
             | EHandleResponseRest err data => Some (err, inr data)
             | _ => None
             end) t.

(** What [answerService.Get] was asked and what it returned. *)
Definition lookups (t : list event)
    : list (string * string * schema.AnswerInfo.t * schema.QuestionInfoResp.t
            * bool * option errors.error) :=
  omap (λ e, if e is EGet answerID userID info question has err
             then Some (answerID, userID, info, question, has, err) else None) t.

(** The user ids read from the gin context. *)
Definition logins (t : list event) : list string :=
  omap (λ e, if e is EGetLoginUserIDFromContext userID then Some userID else None) t.

(** Whom and what the single permission check was asked about. *)
Definition single_check_subjects (t : list event)
    : list (string * permission.Action * string) :=
  omap (λ e, if e is ECheckOperationPermission userID act objectID _ _
             then Some (userID, act, objectID) else None) t.

(** The user on whose behalf a domain mutation was invoked. *)
Definition user_of (e : event) : option string :=
  match e with
  | ERemoveAnswer req _ => Some (schema.RemoveAnswerReq.UserID req)
  | EInsert req _ _ => Some (schema.AnswerAddReq.UserID req)
  | EUpdate req _ => Some (schema.AnswerUpdateReq.UserID req)
  | EAdminSetAnswerStatus req _ => Some (schema.AdminUpdateAnswerStatusReq.UserID req)
  | _ => None
  end.

(** The answer to a failed captcha: [BadRequest] with the one form error
    field [captcha_code]. *)
Definition captcha_rejection (msg : string) : option errors.error * RespData :=
  (Some (errors.BadRequest reason.CaptchaVerificationFailed),
   ErrFields [ {| validator.ErrorField := "captcha_code"; validator.ErrorMsg := msg |} ]).

(** The other handlers, by name. *)
Inductive reading : Type :=
| Recovering   (* RecoverAnswer *)
| Getting      (* GetAnswerInfo *)
| Listing      (* AnswerList *)
| Accepting.   (* AcceptAnswer *)

Definition rest_handler_of {W} (h : reading) (ac : AnswerController W)
    (pk : Packages W) (rs : Rest W) : N W unit :=
  match h with
  | Recovering => RecoverAnswer ac pk rs
  | Getting => GetAnswerInfo ac pk rs
  | Listing => AnswerList ac pk rs
  | Accepting => AcceptAnswer ac pk rs
  end.

(** How many verdicts a handler reads off the batch result. *)
Definition verdicts_read (h : reading) : nat :=
  match h with
  | Recovering => 1
  | Listing => 3
  | Getting | Accepting => 0
  end.

(** How many verdicts a mutating handler reads off it: [canList[0]] in
    [RemoveAnswer], up to [canList[2]] in [AddAnswer] and [UpdateAnswer]. *)
Definition verdicts_indexed (h : mutating) : nat :=
  match h with
  | Removing => 1
  | Adding | Updating => 3
  end.

(** The scripted world answers the additional calls too. *)
Module script_rest.

Definition recoverReq : schema_rest.RecoverAnswerReq.t :=
  {| schema_rest.RecoverAnswerReq.AnswerID := "a1";
     schema_rest.RecoverAnswerReq.UserID := "somebody else" |}.

Definition listReq : schema_rest.AnswerListReq.t :=
  {| schema_rest.AnswerListReq.QuestionID := "q1";
     schema_rest.AnswerListReq.Order := "default";
     schema_rest.AnswerListReq.Page := 1; schema_rest.AnswerListReq.PageSize := 20;
     schema_rest.AnswerListReq.UserID := ""; schema_rest.AnswerListReq.CanEdit := true;
     schema_rest.AnswerListReq.CanDelete := true;
     schema_rest.AnswerListReq.CanRecover := true |}.

Definition acceptReq : schema_rest.AcceptAnswerReq.t :=
  {| schema_rest.AcceptAnswerReq.QuestionID := "q1";
     schema_rest.AcceptAnswerReq.AnswerID := "a1";
     schema_rest.AcceptAnswerReq.UserID := "" |}.

Definition rs : Rest script.World :=
  {| rest_answerService :=
       {| content_rest.RecoverAnswer := λ _ w, (script.mutation_err w, w);
          content_rest.SearchList := λ _ w,
            (([script.info], 1, script.mutation_err w), w);
          content_rest.AcceptAnswer := λ _ w, (script.mutation_err w, w) |};
     rest_handler :=
       {| handler_rest.BindAndCheck_RecoverAnswerReq := script.bind recoverReq;
          handler_rest.BindAndCheck_AnswerListReq := script.bind listReq;
          handler_rest.BindAndCheck_AcceptAnswerReq := script.bind acceptReq;
          handler_rest.HandleResponse := λ err _ w,
            script.with_status (script.status_of err) w |};
     gin_Query := λ _ _, "a2" |}.

(** The answer asked for does not exist. *)
Definition missing_answer : script.World :=
  {| script.status := http.StatusOK; script.bind_failed := false;
     script.login := "u1"; script.admin := false; script.duplicate := false;
     script.batch := script.all true; script.single := λ _, true;
     script.owner := false; script.captcha_pass := true;
     script.restrict_answer := false; script.answer_ids := [];
     script.mutation_err := None; script.has := false |}.

(** An ordinary user whose captcha does not verify. *)
Definition wrong_captcha : script.World :=
  script.world false false (script.all true) true false false false [] None.

(** The rank service answers the batch check with one verdict too few. *)
Definition short_batch : script.World :=
  script.world false false (λ _, [true; true]) true false true false [] None.

(** The author of the answer, without the permissions by rank. *)
Definition owner_without_rank : script.World :=
  script.world false false (script.all false) false true true false [] None.

(** The controller of the scripted world with a rank service that is down:
    both permission checks return an error. *)
Definition rank_down : errors.error := errors.Plain "rank service down".

Definition ac_rank_down : AnswerController script.World :=
  {| answerService := answerService script.ac;
     rankService :=
       {| rank.CheckOperationPermissions := λ _ _ w, (([], Some rank_down), w);
          rank.CheckOperationPermission := λ _ _ _ w, ((false, Some rank_down), w);
          rank.CheckOperationObjectOwner := λ _ _ w, (script.owner w, w) |};
     actionService := actionService script.ac;
     siteInfoCommonService := siteInfoCommonService script.ac;
     rateLimitMiddleware := rateLimitMiddleware script.ac |}.

End script_rest.

(** * The theme store of the UI

    [src/ui/src/stores/themeSetting.ts]: the store holds the theme settings
    and [update] replaces them by new ones after repairing the navbar colour
    of the default theme. *)

Module themeSetting.

(** The entries of [theme_config] and of [theme_options]. *)
Record ThemeColors : Type := { navbar_style : string; primary_color : string }.
Record ThemeOption : Type := { label : string; value : string }.

(** [AdminSettingsTheme], the type of [params] from which [IType] takes the
    types of its four data fields. *)
Record AdminSettingsTheme : Type := {
  theme : string;
  theme_config : gmap string ThemeColors;
  theme_options : list ThemeOption;
  color_scheme : string }.

(** [s.startsWith(prefix)] *)
Definition startsWith (s prefix : string) : bool := String.prefix prefix s.

Section store.
(** The constant of [@/common/constants], whose value is not in the file. *)
Variable DEFAULT_THEME_COLOR : string.

(** The store as [create] builds it. *)
Definition initial : AdminSettingsTheme :=
  {| theme := "default";
     color_scheme := "system";
     theme_options := [ {| label := "Default"; value := "default" |} ];
     theme_config :=
       {[ "default" := {| navbar_style := DEFAULT_THEME_COLOR;
                          primary_color := DEFAULT_THEME_COLOR |} ]} |}.

(** [params.theme_config.default.navbar_style = v] *)
Definition set_default_navbar_style (v : string) (colors : ThemeColors)
    (params : AdminSettingsTheme) : AdminSettingsTheme :=
  {| theme := theme params;
     theme_config :=
       <[ "default" := {| navbar_style := v; primary_color := primary_color colors |} ]>
         (theme_config params);
     theme_options := theme_options params;
     color_scheme := color_scheme params |}.

(** [{...state, ...params}]: every data field of the store is a field of
    [params]. *)
Definition spread (state params : AdminSettingsTheme) : AdminSettingsTheme :=
  {| theme := theme params; theme_config := theme_config params;
     theme_options := theme_options params; color_scheme := color_scheme params |}.

(** [update(params)], as a function of the stored state: the new state and
    [params] as the call leaves it, or nothing when reading
    [params.theme_config.default.navbar_style] throws for want of a
    [default] entry. *)
Definition update (state params : AdminSettingsTheme)
    : option (AdminSettingsTheme * AdminSettingsTheme) :=
  match theme_config params !! "default" with
  | None => None
  | Some colors =>
      (* Compatibility default value is colored or light before v1.5.1 *)
      let params :=
        if negb (startsWith (navbar_style colors) "#")
        then set_default_navbar_style DEFAULT_THEME_COLOR colors params
        else params in
      Some (spread state params, params)
  end.

(** The store after a series of calls of [update]; a call that throws leaves
    the state as it was. *)
Definition updates (state : AdminSettingsTheme) (calls : list AdminSettingsTheme)
    : AdminSettingsTheme :=
  foldl (λ s params, if update s params is Some (s', _) then s' else s) state calls.
End store.

(** Settings as they were stored before v1.5.1, with names for colours. *)
Definition legacy : AdminSettingsTheme :=
  {| theme := "default"; color_scheme := "dark"; theme_options := [];
     theme_config :=
       {[ "default" := {| navbar_style := "colored"; primary_color := "light" |} ]} |}.

(** The navbar colour of the default theme is a hexadecimal colour, as far
    as its first character tells. *)
Definition navbar_is_hex (state : AdminSettingsTheme) : Prop :=
  ∃ colors, theme_config state !! "default" = Some colors
            ∧ startsWith (navbar_style colors) "#" = true.

End themeSetting.

(** * The question list of the UI

    The data the [QuestionList] component computes before it renders: which
    questions go to the pin list and which to the list below it. *)

Module QuestionList.

(** An entry of [data.list], with the fields the computation reads. *)
Record Question : Type := { id : string; pin : Z; title : string }.

Record Data : Type := { count : Z; list : option (Datatypes.list Question) }.

(** [source: 'questions' | 'tag' | 'linked'] *)
Inductive Source : Type := questions | tag | linked.

(** A JavaScript expression evaluates to a value or throws. *)
Inductive result (A : Type) : Type :=
| Ok (a : A)
| TypeError.
Arguments TypeError {A}.

(** [l.findIndex(f)] *)
Fixpoint findIndex_from {A} (f : A → bool) (l : Datatypes.list A) (i : Z) : Z :=
  match l with
  | [] => -1
  | x :: l' => if f x then i else findIndex_from f l' (i + 1)
  end.

Definition findIndex {A} (f : A → bool) (l : Datatypes.list A) : Z := findIndex_from f l 0.

(** [l.filter(f)] for a callback that may throw. *)
Fixpoint filter_cb {A} (f : A → result bool) (l : Datatypes.list A) : result (Datatypes.list A) :=
  match l with
  | [] => Ok []
  | x :: l' =>
      match f x with
      | TypeError => TypeError
      | Ok keep =>
          match filter_cb f l' with
          | TypeError => TypeError
          | Ok r => Ok (if keep then x :: r else r)
          end
      end
  end.

(** [source === 'questions'
       ? data?.list?.filter((v) => v.pin === 2).slice(0, 3) : []];
    [None] is [undefined]. *)
Definition pinData (source : Source) (data : option Data) : option (Datatypes.list Question) :=
  match source with
  | questions =>
      match data with
      | None => None
      | Some d =>
          match list d with
          | None => None
          | Some l => Some (take 3 (filter (λ v, pin v = 2) l))
          end
      end
  | tag | linked => Some []
  end.

(** [data?.list?.filter(
       (v) => pinData.findIndex((p) => p.id === v.id) === -1)];
    calling [findIndex] on an undefined [pinData] throws. *)
Definition renderData (source : Source) (data : option Data)
    : result (option (Datatypes.list Question)) :=
  match data with
  | None => Ok None
  | Some d =>
      match list d with
      | None => Ok None
      | Some l =>
          match filter_cb
                  (λ v, match pinData source data with
                        | None => TypeError
                        | Some pinned =>
                            Ok (findIndex (λ p, String.eqb (id p) (id v)) pinned =? -1)
                        end) l with
          | TypeError => TypeError
          | Ok r => Ok (Some r)
          end
      end
  end.

(** A page of five questions of which four are pinned. *)
Definition question (n : string) (pinned : Z) : Question :=
  {| id := n; pin := pinned; title := "question " ++ n |}.

Definition page : Data :=
  {| count := 5;
     list := Some [question "1" 2; question "2" 1; question "3" 2;
                   question "4" 2; question "5" 2] |}.

End QuestionList.

Unset Implicit Arguments.

(** * Proofs *)

(** ** Running a handler on an arbitrary world

    A handler is a straight line of calls with early returns, so its log is
    found by asking, call after call, what the collaborator answered. *)

Ltac unfold_calls :=
  unfold RemoveAnswer, AddAnswer, UpdateAnswer, AdminUpdateAnswerStatus,
    respondCaptchaVerificationFailed,
    BindAndCheck, HandleResponse, GetLang, GetLoginUserIDFromContext,
    GetUserIsAdminModerator, GetHeader, ClientIP, Writer_Status, GetAnswerPermission,
    DuplicateRequestRejection, DuplicateRequestClear, CheckOperationPermissions,
    CheckOperationPermission, CheckOperationObjectOwner, ActionRecordVerifyCaptcha,
    ActionRecordAdd, GetSiteWrite, answerService_GetCountByUserIDQuestionID,
    answerService_RemoveAnswer, answerService_Insert, answerService_Update,
    answerService_Get, answerService_AdminSetAnswerStatus,
    trace, defer, when, notnil, index, exit, call, observe, peek, perform,
    mbind, M_bind, mret, M_ret.

Ltac case_on x :=
  lazymatch x with
  | negb ?y => case_on y
  | ?y || _ => case_on y
  | ?y && _ => case_on y
  | _ => destruct x eqn:?
  end.

Ltac step :=
  match goal with
  | |- context [match ?x with _ => _ end] =>
      match x with
      | context [match _ with _ => _ end] => fail 1
      | _ => case_on x
      end
  end; simpl.

(** What a call did to the world does not matter to the log. *)
Ltac forget_worlds :=
  repeat match goal with
  | H : _ = (_, _) |- _ => clear H
  end.

(** All the ways through handler [m], with the property asked of its log
    set aside until the log is known. *)
Ltac paths m w :=
  let Q := fresh "Q" in
  pattern (trace m w);
  match goal with |- ?P _ => set (Q := P) end;
  unfold_calls; simpl; repeat step; forget_worlds; subst Q; cbv beta; simpl.

(** Membership in a list that is known element by element. *)
Ltac inv_elem :=
  repeat match goal with
  | H : _ ∈ [] |- _ => apply elem_of_nil in H; destruct H
  | H : _ ∈ _ :: _ |- _ => apply elem_of_cons in H as [H|H]; [try discriminate H|]
  end.

Ltac find_elem :=
  repeat eexists; repeat first [apply list_elem_of_here | apply list_elem_of_further].

(** Go's index expression cannot fail at [j] after it succeeded at [i > j]. *)
Ltac in_range :=
  match goal with
  | H1 : ?l !! _ = Some _, H2 : ?l !! _ = None |- _ =>
      apply lookup_lt_Some in H1; apply lookup_ge_None in H2; simpl in *; lia
  | H1 : length ?l = _, H2 : ?l !! _ = None |- _ =>
      apply lookup_ge_None in H2; simpl in *; lia
  end.

Ltac status_cases :=
  repeat match goal with
  | H : (_ =? _)%Z = true |- _ => apply Z.eqb_eq in H
  | H : (_ =? _)%Z = false |- _ => apply Z.eqb_neq in H
  end.

Ltac crush :=
  inv_elem; simplify_eq; simpl; try done; try congruence; try in_range; try lia.

Ltac sorted := unfold follows; simpl; repeat (constructor; try lia).

(** A list of steps known step by step is part of a sequence without
    repetition. *)
Ltac sublisted :=
  simpl; repeat first [apply sublist_nil_l | apply sublist_skip | apply sublist_cons].

(** The same for the rest of the controller. *)
Ltac unfold_rest :=
  unfold rest_handler_of, RecoverAnswer, GetAnswerInfo, AnswerList, AcceptAnswer,
    Query, HandleResponseRest, answerService_RecoverAnswer, answerService_SearchList,
    answerService_AcceptAnswer, shared, call_rest, observe_rest, perform_rest,
    when_rest, N_bind, N_ret.

(** All the ways through a handler, for a property of the whole run. *)
Ltac runs m w :=
  let Q := fresh "Q" in
  unfold trace, trace_rest, outcome, outcome_rest;
  pattern (m w);
  match goal with |- ?P _ => set (Q := P) end;
  unfold handler_of; unfold_rest; unfold_calls; unfold N_bind, N_ret; simpl;
  repeat step; forget_worlds; subst Q; cbv beta; simpl.

(** ** Lemmas on logs *)

Lemma preceded_spec p q t :
  preceded p q t = true →
  ∀ pre e post, t = pre ++ e :: post → q e = true → ∃ e', e' ∈ pre ∧ p e' = true.
Proof.
  induction t as [|a t IH]; intros Hp pre e post Ht Hq.
  - destruct pre; discriminate.
  - apply andb_true_iff in Hp as [Hqa Hp].
    destruct pre as [|a' pre]; simplify_eq/=.
    + by rewrite Hq in Hqa.
    + destruct (p a') eqn:Hpa.
      * exists a'. split; [left|done].
      * destruct (IH Hp _ _ _ eq_refl Hq) as (e' & Hin & He').
        exists e'. split; [by right|done].
Qed.

(** An order that keeps two steps apart also follows the order that does
    not tell them apart. *)
Lemma follows_coarser (fine coarse : gate → nat) t :
  (∀ g g', (fine g ≤ fine g')%nat → (coarse g ≤ coarse g')%nat) →
  follows fine t → follows coarse t.
Proof.
  intros Hmono. unfold follows.
  induction (gates t) as [|g gs IH]; simpl; [constructor|].
  intros Hs. apply StronglySorted_inv in Hs as [Hs Hall].
  constructor; [by apply IH|].
  rewrite Forall_fmap in Hall |- *. eapply Forall_impl; [exact Hall|].
  intros g'. apply Hmono.
Qed.

(** ** Lemmas on the Permission Evaluator *)

Section many.
Context `{Countable K}.
Implicit Types (cfg : gmap K evaluator.Rule) (actions : list K).

Lemma EvaluateMany_loop_app cfg userRank isOwner isAdmin actions can :
  evaluator.EvaluateMany_loop cfg userRank isOwner isAdmin actions can =
  can ++ ((λ act, evaluator.permits (evaluator.Evaluate cfg userRank act isOwner isAdmin))
            <$> actions).
Proof.
  revert can. induction actions as [|act rest IH]; intros can; simpl.
  - by rewrite app_nil_r.
  - by rewrite IH, <- app_assoc.
Qed.

Lemma EvaluateMany_fmap cfg userRank actions isOwner isAdmin :
  evaluator.EvaluateMany cfg userRank actions isOwner isAdmin =
  (λ act, evaluator.permits (evaluator.Evaluate cfg userRank act isOwner isAdmin))
    <$> actions.
Proof. unfold evaluator.EvaluateMany. by rewrite EvaluateMany_loop_app. Qed.

(** Below the threshold for others, and without the owner argument, the
    evaluator permits nobody but an admin. *)
Lemma Evaluate_below cfg rule userRank act :
  cfg !! act = Some rule →
  userRank < evaluator.othersThreshold rule →
  evaluator.permits (evaluator.Evaluate cfg userRank act false false) = false.
Proof.
  intros Hrule Hlow. unfold evaluator.Evaluate. rewrite Hrule. simpl.
  by rewrite bool_decide_eq_false_2 by lia.
Qed.
End many.

(** ** Lemmas on the handlers *)

Section handlers.
Context {W : Type} (ac : AnswerController W) (pk : Packages W).

Lemma RemoveAnswer_follows w : follows challenge_first_rank (trace (RemoveAnswer ac pk) w).
Proof. paths (RemoveAnswer ac pk) w; sorted. Qed.

Lemma AddAnswer_follows w : follows interleaved_rank (trace (AddAnswer ac pk) w).
Proof. paths (AddAnswer ac pk) w; sorted. Qed.

Lemma UpdateAnswer_follows w : follows sequence_rank (trace (UpdateAnswer ac pk) w).
Proof. paths (UpdateAnswer ac pk) w; sorted. Qed.

Lemma RemoveAnswer_refuses w :
  decision_denies (trace (RemoveAnswer ac pk) w) →
  refused reason.RankFailToMeetTheCondition (trace (RemoveAnswer ac pk) w).
Proof.
  unfold decision_denies, refused.
  paths (RemoveAnswer ac pk) w; intros (? & H1 & H2 & H3); crush.
Qed.

Lemma UpdateAnswer_refuses w :
  decision_denies (trace (UpdateAnswer ac pk) w) →
  refused reason.RankFailToMeetTheCondition (trace (UpdateAnswer ac pk) w).
Proof.
  unfold decision_denies, refused.
  paths (UpdateAnswer ac pk) w; intros (? & H1 & H2 & H3); crush.
Qed.

Lemma AddAnswer_refuses w :
  add_denies (trace (AddAnswer ac pk) w) →
  refused reason.RankFailToMeetTheCondition (trace (AddAnswer ac pk) w).
Proof.
  unfold add_denies, refused.
  paths (AddAnswer ac pk) w; intros H1; crush.
Qed.

(** Who owns the answer goes on to the mutation, whatever the batch check
    said. *)
Lemma RemoveAnswer_owner w (can : list bool) :
  (can, None) ∈ batch_checks (trace (RemoveAnswer ac pk) w) →
  length can = 1%nat →
  true ∈ owner_lookups (trace (RemoveAnswer ac pk) w) →
  ∃ e, mutations (trace (RemoveAnswer ac pk) w) = [e].
Proof. paths (RemoveAnswer ac pk) w; intros H1 H2 H3; crush; eauto. Qed.

Lemma UpdateAnswer_owner w (can : list bool) :
  (can, None) ∈ batch_checks (trace (UpdateAnswer ac pk) w) →
  length can = 3%nat →
  true ∈ owner_lookups (trace (UpdateAnswer ac pk) w) →
  ∃ e, mutations (trace (UpdateAnswer ac pk) w) = [e].
Proof. paths (UpdateAnswer ac pk) w; intros H1 H2 H3; crush; eauto. Qed.

Lemma RemoveAnswer_records w e :
  challenge_passed (trace (RemoveAnswer ac pk) w) →
  e ∈ mutations (trace (RemoveAnswer ac pk) w) →
  length (records (trace (RemoveAnswer ac pk) w)) = 1%nat.
Proof.
  unfold challenge_passed.
  paths (RemoveAnswer ac pk) w; intros (? & H1) H2; crush.
Qed.

Lemma AddAnswer_records w e :
  challenge_passed (trace (AddAnswer ac pk) w) →
  e ∈ mutations (trace (AddAnswer ac pk) w) →
  length (records (trace (AddAnswer ac pk) w))
  = if error_of e is None then 1%nat else 0%nat.
Proof.
  unfold challenge_passed.
  paths (AddAnswer ac pk) w; intros (? & H1) H2; crush.
Qed.

Lemma UpdateAnswer_records w e :
  challenge_passed (trace (UpdateAnswer ac pk) w) →
  e ∈ mutations (trace (UpdateAnswer ac pk) w) →
  length (records (trace (UpdateAnswer ac pk) w))
  = if error_of e is None then 1%nat else 0%nat.
Proof.
  unfold challenge_passed.
  paths (UpdateAnswer ac pk) w; intros (? & H1) H2; crush.
Qed.

Lemma RemoveAnswer_challenge w (isAdmin : bool) :
  isAdmin ∈ admin_reads (trace (RemoveAnswer ac pk) w) →
  if isAdmin
  then verifications (trace (RemoveAnswer ac pk) w) = []
       ∧ records (trace (RemoveAnswer ac pk) w) = []
  else ∃ pass, verifications (trace (RemoveAnswer ac pk) w)
               = [(entity.CaptchaActionDelete, pass)].
Proof. paths (RemoveAnswer ac pk) w; intros H1; crush; eauto. Qed.

Lemma AddAnswer_challenge w (can : list bool) (link isAdmin : bool) :
  (can, None) ∈ batch_checks (trace (AddAnswer ac pk) w) →
  can !! 2%nat = Some link →
  isAdmin ∈ admin_reads (trace (AddAnswer ac pk) w) →
  if isAdmin && link
  then verifications (trace (AddAnswer ac pk) w) = []
       ∧ records (trace (AddAnswer ac pk) w) = []
  else ∃ pass, verifications (trace (AddAnswer ac pk) w)
               = [(entity.CaptchaActionAnswer, pass)].
Proof. paths (AddAnswer ac pk) w; intros H1 H2 H3; crush; eauto. Qed.

Lemma UpdateAnswer_challenge w (can : list bool) (link isAdmin : bool) :
  (can, None) ∈ batch_checks (trace (UpdateAnswer ac pk) w) →
  can !! 2%nat = Some link →
  isAdmin ∈ admin_reads (trace (UpdateAnswer ac pk) w) →
  if isAdmin && link
  then verifications (trace (UpdateAnswer ac pk) w) = []
       ∧ records (trace (UpdateAnswer ac pk) w) = []
  else ∃ pass, verifications (trace (UpdateAnswer ac pk) w)
               = [(entity.CaptchaActionEdit, pass)].
Proof. paths (UpdateAnswer ac pk) w; intros H1 H2 H3; crush; eauto. Qed.

(** What the guards of the three handlers say: [!isAdmin] in [RemoveAnswer],
    [!isAdmin || !linkUrlLimitUser] in [AddAnswer] and [UpdateAnswer]. *)
Lemma challenge_guard (h : mutating) (w : W) (isAdmin link : bool) :
  isAdmin ∈ admin_reads (trace (handler_of h ac pk) w) →
  (h ≠ Removing →
     ∃ can : list bool, (can, None) ∈ batch_checks (trace (handler_of h ac pk) w)
                        ∧ can !! 2%nat = Some link) →
  if exempt h isAdmin link
  then verifications (trace (handler_of h ac pk) w) = []
       ∧ records (trace (handler_of h ac pk) w) = []
  else ∃ pass, verifications (trace (handler_of h ac pk) w) = [(kind_of h, pass)].
Proof.
  destruct h; simpl; intros Hadmin Hlink.
  - by apply RemoveAnswer_challenge.
  - destruct Hlink as (can & Hcan & Hl); [done|].
    by eapply AddAnswer_challenge.
  - destruct Hlink as (can & Hcan & Hl); [done|].
    by eapply UpdateAnswer_challenge.
Qed.

Lemma AddAnswer_admin_read_after_admission w :
  preceded is_admission is_admin_read (trace (AddAnswer ac pk) w) = true.
Proof. paths (AddAnswer ac pk) w; reflexivity. Qed.

Lemma AddAnswer_rejection_is_final w key :
  (true, key) ∈ suppressions (trace (AddAnswer ac pk) w) →
  ∃ req, trace (AddAnswer ac pk) w
         = [EBindAndCheck false; EDuplicateRequestRejection req true key].
Proof. paths (AddAnswer ac pk) w; intros Hin; crush; eauto. Qed.

Lemma AddAnswer_suppression_applied w :
  false ∈ bindings (trace (AddAnswer ac pk) w) →
  suppressions (trace (AddAnswer ac pk) w) ≠ [].
Proof. paths (AddAnswer ac pk) w; intros Hin; crush. Qed.

Lemma AdminUpdateAnswerStatus_direct w :
  false ∈ bindings (trace (AdminUpdateAnswerStatus ac pk) w) →
  ∃ userID req err,
    trace (AdminUpdateAnswerStatus ac pk) w
    = [EBindAndCheck false; EGetLoginUserIDFromContext userID;
       EAdminSetAnswerStatus req err; EHandleResponse err NoData].
Proof. paths (AdminUpdateAnswerStatus ac pk) w; intros H1; crush; eauto. Qed.

(** The index expressions [canList[0]], [canList[1]] and [canList[2]] are
    within range as soon as the batch check answers about every action. *)
Lemma handlers_do_not_panic h w :
  batch_is_total ac → outcome (handler_of h ac pk) w ≠ Panic.
Proof.
  intros Hlen. destruct h; unfold handler_of, outcome; unfold_calls; simpl.
  all: repeat step; try done.
  all: match goal with
       | Hcall : rank.CheckOperationPermissions _ ?u ?acts ?w0 = (?l, _, _),
         Hidx : ?l !! _ = None |- _ =>
           specialize (Hlen u acts w0); rewrite Hcall in Hlen; simpl in Hlen;
           apply lookup_ge_None in Hidx; lia
       end.
Qed.
End handlers.

(** ** Properties of the gating layer *)

(** C1 (as amended). Each mutating handler makes its gating calls in the
    fixed order of its own statements, each at most once, and never a later
    one before an earlier one. [RemoveAnswer]: captcha verification,
    ownership lookup, batch permission check, deletion, attempt record.
    [AddAnswer]: admission by the Duplicate Suppressor, batch permission
    lookup, captcha verification, [AnswerAdd] check, insertion, attempt
    record, ownership lookup (for the member actions of the answer),
    release. [UpdateAnswer]: batch permission lookup, captcha verification,
    ownership lookup, update, attempt record. Only [AddAnswer] asks the
    Duplicate Suppressor and releases. The decision to deny is answered
    after every evaluation, lookup and verification the handler makes:
    nothing follows the denial but the deferred release of [AddAnswer]. In
    all three, evaluation and verification come before the mutation and
    the attempt record after it. *)
Theorem C1_gating_order {W} (ac : AnswerController W) (pk : Packages W)
    (h : mutating) (w : W) :
  stages (trace (handler_of h ac pk) w) `sublist_of` sequence_of h
  ∧ (h ≠ Adding → suppressions (trace (handler_of h ac pk) w) = []
                  ∧ releases (trace (handler_of h ac pk) w) = [])
  ∧ (denies h (trace (handler_of h ac pk) w) →
     ∃ post, after_denial (trace (handler_of h ac pk) w) = Some post
             ∧ stages post `sublist_of` [Releasing])
  ∧ follows (observed_rank h) (trace (handler_of h ac pk) w)
  ∧ follows interleaved_rank (trace (handler_of h ac pk) w).
Proof.
  destruct h; simpl; unfold decision_denies, add_denies.
  - paths (RemoveAnswer ac pk) w.
    all: split; [sublisted|]; split; [done|]; split; [|split; sorted].
    all: intros (can & H1 & H2 & H3); crush.
    all: eexists; (split; [reflexivity|sublisted]).
  - paths (AddAnswer ac pk) w.
    all: split; [sublisted|]; split; [done|]; split; [|split; sorted].
    all: intros H1; crush.
    all: eexists; (split; [reflexivity|sublisted]).
  - paths (UpdateAnswer ac pk) w.
    all: split; [sublisted|]; split; [done|]; split; [|split; sorted].
    all: intros (can & H1 & H2 & H3); crush.
    all: eexists; (split; [reflexivity|sublisted]).
Qed.

(** C1 as stated fails: [RemoveAnswer] verifies the captcha of an ordinary
    user before it evaluates the permission, and [AddAnswer] checks
    [AnswerAdd] after the captcha. *)
Lemma C1_sequence_not_followed :
  ¬ follows sequence_rank (trace (handler_of Removing script.ac script.pk) script.ordinary)
  ∧ ¬ follows sequence_rank (trace (handler_of Adding script.ac script.pk) script.ordinary).
Proof.
  unfold follows. split; vm_compute; intros Hs.
  - inversion Hs as [|? ? _ Hall]; subst.
    inversion Hall as [|? ? Hle _]; subst. lia.
  - inversion Hs as [|? ? Hs1 _]; subst.
    inversion Hs1 as [|? ? Hs2 _]; subst.
    inversion Hs2 as [|? ? _ Hall]; subst.
    inversion Hall as [|? ? Hle _]; subst. lia.
Qed.

(** C2. In [AddAnswer] a request whose body binds is always put to the
    Duplicate Suppressor; when the suppressor rejects, the handler returns
    at once, whatever the admin flag of the request is; and wherever the
    admin flag is read, the suppressor has admitted the request before. *)
Theorem C2_admin_does_not_bypass_suppression {W} (ac : AnswerController W)
    (pk : Packages W) (w : W) :
  (false ∈ bindings (trace (AddAnswer ac pk) w) →
     suppressions (trace (AddAnswer ac pk) w) ≠ [])
  ∧ (∀ key, (true, key) ∈ suppressions (trace (AddAnswer ac pk) w) →
       ∃ req, trace (AddAnswer ac pk) w
              = [EBindAndCheck false; EDuplicateRequestRejection req true key])
  ∧ (∀ pre isAdmin post,
       trace (AddAnswer ac pk) w = pre ++ EGetUserIsAdminModerator isAdmin :: post →
       ∃ req key, EDuplicateRequestRejection req false key ∈ pre).
Proof.
  split; [apply AddAnswer_suppression_applied|].
  split; [apply AddAnswer_rejection_is_final|].
  intros pre isAdmin post Ht.
  pose proof (AddAnswer_admin_read_after_admission ac pk w) as Hp.
  eapply preceded_spec in Hp as (e' & Hin & He'); [|exact Ht|reflexivity].
  destruct e' as [| | |req [] key| | | | | | | | | | | | | | |]; try discriminate He'.
  by exists req, key.
Qed.

Lemma C2_resubmission_by_admin_rejected :
  script.admin sample.resubmitted_by_admin = true
  ∧ ∃ req, trace (AddAnswer script.ac script.pk) sample.resubmitted_by_admin
           = [EBindAndCheck false; EDuplicateRequestRejection req true "q1"].
Proof.
  split; [reflexivity|].
  apply (C2_admin_does_not_bypass_suppression script.ac script.pk
           sample.resubmitted_by_admin).
  vm_compute. apply list_elem_of_here.
Defined.

(** C3. In [AddAnswer], once the Duplicate Suppressor has admitted the
    request, the deferred function reads the status of the response writer
    in the state the body has left, which is the state the one answer of
    the handler has left ([w_end]); it releases the duplicate record of
    this request exactly when that status is not 200, once, and nothing is
    released before. On 200 the run ends in [w_end], otherwise in what
    [DuplicateRequestClear] makes of [w_end]. A body that has not answered
    has panicked. *)
Theorem C3_release_iff_failure {W} (ac : AnswerController W) (pk : Packages W)
    (w : W) (key : string) :
  (false, key) ∈ suppressions (trace (AddAnswer ac pk) w) →
  ∃ (body : list event) (w_end : W),
    trace (AddAnswer ac pk) w
    = body ++ EWriterStatus (gin.Writer_Status (pkg_gin pk) w_end)
           :: (if gin.Writer_Status (pkg_gin pk) w_end =? http.StatusOK then []
               else [EDuplicateRequestClear key])
    ∧ releases body = []
    ∧ final (AddAnswer ac pk) w
      = (if gin.Writer_Status (pkg_gin pk) w_end =? http.StatusOK then w_end
         else middleware.DuplicateRequestClear (rateLimitMiddleware ac) key w_end)
    ∧ match responses body with
      | [] => outcome (AddAnswer ac pk) w = Panic
      | (err, data) :: others =>
          others = []
          ∧ ∃ w', w_end = handler.HandleResponse (pkg_handler pk) err data w'
      end.
Proof.
  unfold final, outcome, trace.
  pattern (AddAnswer ac pk w).
  match goal with |- ?P _ => set (Q := P) end.
  unfold_calls; simpl; repeat step; forget_worlds; subst Q; cbv beta; simpl.
  all: intros Hin; crush.
  (* the body is the log up to the deferred reading of the status *)
  all: match goal with
       | H : (gin.Writer_Status _ ?w0 =? _) = _ |- ∃ _ _, ?T = _ ∧ _ =>
           exists (before_status T), w0; rewrite H
       end; simpl.
  all: repeat split; eauto.
Qed.

Lemma C3_failed_insertion_releases :
  (false, "q1") ∈ suppressions (trace (AddAnswer script.ac script.pk) sample.failing)
  ∧ responses (trace (AddAnswer script.ac script.pk) sample.failing)
    = [(Some (errors.Plain "storage failure"), NoData)]
  ∧ releases (trace (AddAnswer script.ac script.pk) sample.failing) = ["q1"].
Proof.
  assert ((false, "q1")
          ∈ suppressions (trace (AddAnswer script.ac script.pk) sample.failing)) as Hin.
  { vm_compute. apply list_elem_of_here. }
  assert (responses (trace (AddAnswer script.ac script.pk) sample.failing)
          = [(Some (errors.Plain "storage failure"), NoData)]) as Hr.
  { vm_compute. reflexivity. }
  split; [exact Hin|]. split; [exact Hr|].
  destruct (C3_release_iff_failure script.ac script.pk sample.failing "q1" Hin)
    as (body & w_end & Ht & Hrel & _ & Hlast).
  rewrite Ht in Hr |- *. unfold responses, releases in *.
  rewrite omap_app, Hrel. rewrite omap_app in Hr.
  destruct (gin.Writer_Status (pkg_gin script.pk) w_end =? http.StatusOK) eqn:Hs;
    [|reflexivity].
  (* the status read is the one the answer of the handler has left *)
  simpl in Hr. rewrite app_nil_r in Hr. rewrite Hr in Hlast.
  destruct Hlast as (_ & w' & ->). vm_compute in Hs. discriminate Hs.
Defined.

(** C4. In [RemoveAnswer], [AddAnswer] and [UpdateAnswer], when the
    permission check denies, the handler answers [Forbidden] and nothing
    else, invokes no domain mutation and records no attempt. *)
Theorem C4_denial_has_no_side_effects {W} (ac : AnswerController W)
    (pk : Packages W) (h : mutating) (w : W) :
  denies h (trace (handler_of h ac pk) w) →
  refused reason.RankFailToMeetTheCondition (trace (handler_of h ac pk) w).
Proof.
  destruct h; simpl.
  - apply RemoveAnswer_refuses.
  - apply AddAnswer_refuses.
  - apply UpdateAnswer_refuses.
Qed.

Lemma C4_unprivileged_refused :
  denies Adding (trace (handler_of Adding script.ac script.pk) sample.unprivileged)
  ∧ refused reason.RankFailToMeetTheCondition
      (trace (handler_of Adding script.ac script.pk) sample.unprivileged).
Proof.
  assert (denies Adding
            (trace (handler_of Adding script.ac script.pk) sample.unprivileged)) as Hd.
  { vm_compute. apply list_elem_of_here. }
  split; [exact Hd|].
  exact (C4_denial_has_no_side_effects script.ac script.pk Adding
           sample.unprivileged Hd).
Defined.

(** C5 (as amended). When the captcha verification was demanded and passed
    and the handler went on to its domain mutation, [RemoveAnswer] records
    the attempt exactly once whether the deletion succeeded or failed;
    [AddAnswer] and [UpdateAnswer] record it exactly once when the mutation
    succeeded and not at all when it failed. *)
Theorem C5_attempt_recorded {W} (ac : AnswerController W) (pk : Packages W)
    (h : mutating) (w : W) (e : event) :
  challenge_passed (trace (handler_of h ac pk) w) →
  e ∈ mutations (trace (handler_of h ac pk) w) →
  length (records (trace (handler_of h ac pk) w)) = attempts_due h (error_of e).
Proof.
  destruct h; simpl.
  - apply RemoveAnswer_records.
  - apply AddAnswer_records.
  - apply UpdateAnswer_records.
Qed.

Lemma C5_failed_deletion_recorded :
  challenge_passed (trace (handler_of Removing script.ac script.pk) sample.failing)
  ∧ length (records (trace (handler_of Removing script.ac script.pk) sample.failing))
    = 1%nat.
Proof.
  assert (challenge_passed
            (trace (handler_of Removing script.ac script.pk) sample.failing)) as Hc.
  { exists entity.CaptchaActionDelete. vm_compute. apply list_elem_of_here. }
  split; [exact Hc|].
  refine (C5_attempt_recorded script.ac script.pk Removing sample.failing
            (ERemoveAnswer
               (schema.RemoveAnswerReq.with_CanDelete true
                  (schema.RemoveAnswerReq.with_UserID "u1" script.removeReq))
               (Some (errors.Plain "storage failure"))) Hc _).
  vm_compute. apply list_elem_of_here.
Defined.

(** C5 as stated fails: an insertion that fails after a passed captcha
    leaves no attempt recorded. *)
Lemma C5_failed_insertion_not_recorded :
  ¬ recorded_once_whatever_the_outcome
      (trace (handler_of Adding script.ac script.pk) sample.failing).
Proof.
  unfold recorded_once_whatever_the_outcome, challenge_passed. intros Hc.
  assert (0 = 1)%nat as Habs; [|discriminate Habs].
  apply Hc.
  - exists entity.CaptchaActionAnswer. vm_compute. apply list_elem_of_here.
  - vm_compute. discriminate.
Qed.

(** C6. With a rank service that answers the batch check as the Permission
    Evaluator does, for the admin flag the handler reads, [AddAnswer] and
    [UpdateAnswer] leave the challenge gate out for every admin or
    moderator, exactly as [RemoveAnswer] does: no captcha is verified and no
    attempt recorded. For everybody else the three handlers have the captcha
    verified, once, under the kind of the handler. *)
Theorem C6_admin_exempt_from_challenge {W} (ac : AnswerController W) (pk : Packages W)
    (h : mutating) (w : W) (cfg : gmap permission.Action evaluator.Rule)
    (userRank : Z) (ownerArg isAdmin : bool) :
  isAdmin ∈ admin_reads (trace (handler_of h ac pk) w) →
  (h ≠ Removing →
     (evaluator.EvaluateMany cfg userRank (asked h) ownerArg isAdmin, None)
       ∈ batch_checks (trace (handler_of h ac pk) w)) →
  if isAdmin
  then verifications (trace (handler_of h ac pk) w) = []
       ∧ records (trace (handler_of h ac pk) w) = []
  else ∃ pass, verifications (trace (handler_of h ac pk) w) = [(kind_of h, pass)].
Proof.
  intros Hadmin Hbatch.
  pose proof (challenge_guard ac pk h w isAdmin
                (evaluator.permits
                   (evaluator.Evaluate cfg userRank permission.LinkUrlLimit
                      ownerArg isAdmin)) Hadmin) as Hguard.
  assert (exempt h isAdmin
            (evaluator.permits
               (evaluator.Evaluate cfg userRank permission.LinkUrlLimit ownerArg isAdmin))
          = isAdmin) as Hexempt.
  { destruct h, isAdmin; reflexivity. }
  rewrite Hexempt in Hguard. apply Hguard.
  intros Hh. eexists. split; [exact (Hbatch Hh)|].
  rewrite EvaluateMany_fmap, list_lookup_fmap. by destruct h.
Qed.

Lemma C6_low_ranked_admin_not_challenged :
  true ∈ admin_reads (trace (handler_of Updating script.ac script.pk)
                            sample.low_ranked_admin)
  ∧ verifications (trace (handler_of Updating script.ac script.pk)
                         sample.low_ranked_admin) = []
  ∧ records (trace (handler_of Updating script.ac script.pk)
                   sample.low_ranked_admin) = [].
Proof.
  assert (true ∈ admin_reads (trace (handler_of Updating script.ac script.pk)
                                    sample.low_ranked_admin)) as Ha.
  { vm_compute. apply list_elem_of_here. }
  split; [exact Ha|].
  refine (C6_admin_exempt_from_challenge script.ac script.pk Updating
            sample.low_ranked_admin sample.rules 10 false true Ha _).
  intros _. vm_compute. apply list_elem_of_here.
Defined.

(** C7 (as amended). For a user who is not an admin and whose rank is below
    the threshold for others of the deciding action, [RemoveAnswer] and
    [UpdateAnswer] refuse exactly when the ownership lookup says the user
    does not own the answer; the owner goes on to the mutation at any rank,
    no owner threshold is applied. This holds whatever ownership the rank
    service is told when it evaluates the batch ([ownerArg]), as long as it
    is not told of an ownership that does not exist. *)
Theorem C7_owner_permitted_at_any_rank {W} (ac : AnswerController W)
    (pk : Packages W) (h : mutating) (w : W)
    (cfg : gmap permission.Action evaluator.Rule) (rule : evaluator.Rule)
    (userRank : Z) (ownerArg isOwner : bool) :
  h ≠ Adding →
  cfg !! deciding h = Some rule →
  userRank < evaluator.othersThreshold rule →
  (ownerArg = true → isOwner = true) →
  (evaluator.EvaluateMany cfg userRank (asked h) ownerArg false, None)
    ∈ batch_checks (trace (handler_of h ac pk) w) →
  isOwner ∈ owner_lookups (trace (handler_of h ac pk) w) →
  if isOwner
  then ∃ e, mutations (trace (handler_of h ac pk) w) = [e]
  else refused reason.RankFailToMeetTheCondition (trace (handler_of h ac pk) w).
Proof.
  intros Hh Hrule Hlow Harg Hbatch Hown.
  destruct isOwner.
  - destruct h; [|done|]; simpl in *.
    + eapply RemoveAnswer_owner; [exact Hbatch| |exact Hown].
      by rewrite EvaluateMany_fmap.
    + eapply UpdateAnswer_owner; [exact Hbatch| |exact Hown].
      by rewrite EvaluateMany_fmap.
  - assert (ownerArg = false) as ->.
    { destruct ownerArg; [|done]. by specialize (Harg eq_refl). }
    assert (decision_denies (trace (handler_of h ac pk) w)) as Hdeny.
    { eexists. split; [exact Hbatch|]. split; [|exact Hown].
      rewrite EvaluateMany_fmap, list_lookup_fmap.
      destruct h; [|done|]; simpl in *; f_equal; by eapply Evaluate_below. }
    destruct h; [|done|]; simpl in *.
    + by apply RemoveAnswer_refuses.
    + by apply UpdateAnswer_refuses.
Qed.

Lemma C7_low_ranked_owner_deletes :
  (10 < 30 ∧ 10 < 100)
  ∧ (∃ e, mutations (trace (handler_of Removing script.ac script.pk)
                           sample.low_ranked_owner) = [e])
  ∧ refused reason.RankFailToMeetTheCondition
      (trace (handler_of Removing script.ac script.pk) sample.low_ranked_stranger).
Proof.
  split; [lia|]. split.
  - refine (C7_owner_permitted_at_any_rank script.ac script.pk Removing
              sample.low_ranked_owner sample.rules
              {| evaluator.othersThreshold := 100; evaluator.ownerThreshold := Some 30 |}
              10 false true _ _ _ _ _ _).
    + discriminate.
    + reflexivity.
    + simpl. lia.
    + discriminate.
    + vm_compute. apply list_elem_of_here.
    + vm_compute. apply list_elem_of_here.
  - refine (C7_owner_permitted_at_any_rank script.ac script.pk Removing
              sample.low_ranked_stranger sample.rules
              {| evaluator.othersThreshold := 100; evaluator.ownerThreshold := Some 30 |}
              10 false false _ _ _ _ _ _).
    + discriminate.
    + reflexivity.
    + simpl. lia.
    + discriminate.
    + vm_compute. apply list_elem_of_here.
    + vm_compute. apply list_elem_of_here.
Defined.

(** C7 as stated fails: the author of an answer, with rank 10 where
    deleting needs 100 and 30 for the owner, is not refused. *)
Lemma C7_owner_below_owner_threshold_not_refused : ¬ owner_needs_owner_threshold.
Proof.
  intros Hclaim.
  destruct (Hclaim sample.rules
              {| evaluator.othersThreshold := 100; evaluator.ownerThreshold := Some 30 |}
              10 true) as (Hr & _).
  - reflexivity.
  - simpl. lia.
  - intros (_ & ownerT & Ho & Hle). simplify_eq/=. lia.
  - vm_compute in Hr. discriminate Hr.
Qed.

(** C8. The batch permission check returns as many booleans as it was given
    actions, and the boolean at each position is the single evaluation of
    the action at that position. *)
Theorem C8_batch_is_pointwise `{Countable K} (cfg : gmap K evaluator.Rule)
    (userRank : Z) (actions : list K) (isOwner isAdmin : bool) :
  length (evaluator.EvaluateMany cfg userRank actions isOwner isAdmin) = length actions
  ∧ ∀ i : nat,
      evaluator.EvaluateMany cfg userRank actions isOwner isAdmin !! i
      = (λ act, evaluator.permits (evaluator.Evaluate cfg userRank act isOwner isAdmin))
          <$> actions !! i.
Proof.
  rewrite EvaluateMany_fmap. split.
  - by rewrite length_fmap.
  - intros i. by rewrite list_lookup_fmap.
Qed.

(** C9 (as amended). In [AddAnswer], when the site write configuration is
    read, without error, with [RestrictAnswer] set and the user is found,
    without error, to have at least one answer on the question already, the
    handler answers [Forbidden] with [AnswerRestrictAnswer] and does not
    insert. The handler gets that far only with a request that the
    Duplicate Suppressor admitted, whose captcha, where one was demanded,
    verified, and to which [AnswerAdd] was granted. *)
Theorem C9_one_answer_per_question {W} (ac : AnswerController W) (pk : Packages W)
    (w : W) (write : schema.SiteWriteResp.t) (ids : list string) :
  (write, None) ∈ site_writes (trace (AddAnswer ac pk) w) →
  schema.SiteWriteResp.RestrictAnswer write = true →
  (ids, None) ∈ count_lookups (trace (AddAnswer ac pk) w) →
  (1 ≤ length ids)%nat →
  refused reason.AnswerRestrictAnswer (trace (AddAnswer ac pk) w)
  ∧ (∃ key, suppressions (trace (AddAnswer ac pk) w) = [(false, key)])
  ∧ Forall (λ v, v.2 = true) (verifications (trace (AddAnswer ac pk) w))
  ∧ single_checks (trace (AddAnswer ac pk) w) = [(permission.AnswerAdd, true, None)].
Proof.
  unfold refused.
  paths (AddAnswer ac pk) w; intros Hwrite Hrestrict Hcount Hlen; crush.
  all: repeat split; eauto; by repeat constructor.
Qed.

Lemma C9_second_answer_refused :
  script.restrict_answer sample.second_answer = true
  ∧ refused reason.AnswerRestrictAnswer
      (trace (AddAnswer script.ac script.pk) sample.second_answer).
Proof.
  split; [reflexivity|].
  refine (proj1 (C9_one_answer_per_question script.ac script.pk sample.second_answer
                   {| schema.SiteWriteResp.RestrictAnswer := true |} ["a1"] _ _ _ _)).
  - vm_compute. apply list_elem_of_here.
  - reflexivity.
  - vm_compute. apply list_elem_of_here.
  - simpl. lia.
Defined.

(** C9 as stated fails: on a site that restricts a user to one answer per
    question, the second answer of a user whose captcha does not verify is
    answered with [BadRequest], not with [AnswerRestrictAnswer]. *)
Lemma C9_wrong_captcha_answered_first : ¬ one_answer_always_enforced.
Proof.
  intros Hclaim.
  destruct (Hclaim sample.second_answer_wrong_captcha) as (Hr & _).
  - reflexivity.
  - reflexivity.
  - simpl. lia.
  - vm_compute in Hr. discriminate Hr.
Qed.

(** C10. [AdminUpdateAnswerStatus], once the body binds, invokes the status
    mutation of the answer service directly: on the state the binding left,
    with the bound request, its answer id with the short form undone and its
    user the one of the session. It answers with the error the service
    returned, on the state the service left, and calls neither the Duplicate
    Suppressor, nor the Permission Evaluator, nor the ownership lookup, nor
    the Challenge Gate. *)
Theorem C10_admin_status_is_ungated {W} (ac : AnswerController W) (pk : Packages W)
    (w w1 : W) (req0 : schema.AdminUpdateAnswerStatusReq.t) :
  handler.BindAndCheck_AdminUpdateAnswerStatusReq (pkg_handler pk) w
  = ((false, req0), w1) →
  ∃ (err : option errors.error) (w2 : W),
    let req :=
      schema.AdminUpdateAnswerStatusReq.with_UserID
        (middleware.GetLoginUserIDFromContext (pkg_middleware pk) w1)
        (schema.AdminUpdateAnswerStatusReq.with_AnswerID
           (uid_DeShortID pk (schema.AdminUpdateAnswerStatusReq.AnswerID req0)) req0) in
    content.AdminSetAnswerStatus (answerService ac) req w1 = (err, w2)
    ∧ mutations (trace (AdminUpdateAnswerStatus ac pk) w) = [EAdminSetAnswerStatus req err]
    ∧ responses (trace (AdminUpdateAnswerStatus ac pk) w) = [(err, NoData)]
    ∧ final (AdminUpdateAnswerStatus ac pk) w
      = handler.HandleResponse (pkg_handler pk) err NoData w2
    ∧ Forall (λ e, gating_call e = false) (trace (AdminUpdateAnswerStatus ac pk) w).
Proof.
  intros Hbind.
  destruct (content.AdminSetAnswerStatus (answerService ac)
              (schema.AdminUpdateAnswerStatusReq.with_UserID
                 (middleware.GetLoginUserIDFromContext (pkg_middleware pk) w1)
                 (schema.AdminUpdateAnswerStatusReq.with_AnswerID
                    (uid_DeShortID pk (schema.AdminUpdateAnswerStatusReq.AnswerID req0))
                    req0)) w1) as [err w2] eqn:Hcall.
  exists err, w2. cbv zeta. split; [exact Hcall|].
  unfold final, trace. unfold_calls; simpl. rewrite Hbind; simpl.
  simpl in Hcall. rewrite Hcall; simpl.
  repeat split; by repeat constructor.
Qed.

Lemma C10_status_set_directly :
  handler.BindAndCheck_AdminUpdateAnswerStatusReq (pkg_handler script.pk) sample.admin
  = ((false, script.statusReq), sample.admin)
  ∧ mutations (trace (AdminUpdateAnswerStatus script.ac script.pk) sample.admin)
    = [EAdminSetAnswerStatus
         (schema.AdminUpdateAnswerStatusReq.with_UserID "u1" script.statusReq) None]
  ∧ responses (trace (AdminUpdateAnswerStatus script.ac script.pk) sample.admin)
    = [(None, NoData)]
  ∧ Forall (λ e, gating_call e = false)
      (trace (AdminUpdateAnswerStatus script.ac script.pk) sample.admin).
Proof.
  assert (handler.BindAndCheck_AdminUpdateAnswerStatusReq (pkg_handler script.pk)
            sample.admin = ((false, script.statusReq), sample.admin)) as Hbind.
  { reflexivity. }
  split; [exact Hbind|].
  destruct (C10_admin_status_is_ungated script.ac script.pk sample.admin sample.admin
              script.statusReq Hbind) as (err & w2 & Hcall & Hm & Hr & _ & Hg).
  simpl in Hcall. injection Hcall as <- <-.
  split; [exact Hm|]. split; [exact Hr|exact Hg].
Defined.

(** * More of the controller *)

Section rest.
Context {W : Type} (ac : AnswerController W) (pk : Packages W) (rs : Rest W).

(** X1. [RecoverAnswer] refuses whoever the batch check does not grant
    [AnswerUnDelete]: it answers [Forbidden] and nothing else and does not
    call the answer service. *)
Theorem X1_recover_refused (w : W) (can : list bool) :
  (can, None) ∈ batch_checks (shared_events (trace_rest (RecoverAnswer ac pk rs) w)) →
  can !! 0%nat = Some false →
  answers (trace_rest (RecoverAnswer ac pk rs) w)
  = [(Some (errors.Forbidden reason.RankFailToMeetTheCondition), inl NoData)]
  ∧ recoveries (trace_rest (RecoverAnswer ac pk rs) w) = [].
Proof. runs (RecoverAnswer ac pk rs) w; intros H1 H2; crush. Qed.

(** X2. Rank alone decides in [RecoverAnswer], [AnswerList] and
    [AcceptAnswer], and nothing gates [GetAnswerInfo]: none of the four ever
    looks up who owns the answer, verifies a captcha, records an attempt or
    asks the Duplicate Suppressor, and none invokes a mutation of the
    claims' handlers. *)
Theorem X2_rest_never_consults (h : reading) (w : W) :
  let t := shared_events (trace_rest (rest_handler_of h ac pk rs) w) in
  owner_lookups t = [] ∧ verifications t = [] ∧ records t = []
  ∧ suppressions t = [] ∧ releases t = [] ∧ mutations t = [].
Proof.
  destruct h; simpl.
  - runs (RecoverAnswer ac pk rs) w; done.
  - runs (GetAnswerInfo ac pk rs) w; done.
  - runs (AnswerList ac pk rs) w; done.
  - runs (AcceptAnswer ac pk rs) w; done.
Qed.

(** X3. When the batch check grants [AnswerUnDelete], [RecoverAnswer] calls
    the answer service once, for the answer id of the body with the short
    form undone and on behalf of the user of the session, whatever user id
    the body carried, and answers with the error the service returned. *)
Theorem X3_recover_permitted (w w1 : W) (req0 : schema_rest.RecoverAnswerReq.t)
    (can : list bool) :
  handler_rest.BindAndCheck_RecoverAnswerReq (rest_handler rs) w = ((false, req0), w1) →
  (can, None) ∈ batch_checks (shared_events (trace_rest (RecoverAnswer ac pk rs) w)) →
  can !! 0%nat = Some true →
  ∃ err,
    recoveries (trace_rest (RecoverAnswer ac pk rs) w)
    = [({| schema_rest.RecoverAnswerReq.AnswerID :=
             uid_DeShortID pk (schema_rest.RecoverAnswerReq.AnswerID req0);
           schema_rest.RecoverAnswerReq.UserID :=
             middleware.GetLoginUserIDFromContext (pkg_middleware pk) w1 |}, err)]
    ∧ answers (trace_rest (RecoverAnswer ac pk rs) w) = [(err, inl NoData)].
Proof.
  intros Hbind. unfold trace_rest.
  unfold_rest; unfold_calls; unfold N_bind, N_ret; simpl. rewrite Hbind; simpl.
  repeat step; forget_worlds; intros H1 H2; crush; eauto.
Qed.

(** X4. [AcceptAnswer] puts one question to the rank service: may the user
    of the session accept an answer ([AnswerAccept]) on the question of the
    body, its short id undone. *)
Theorem X4_accept_asks_about_the_question (w w1 : W)
    (req0 : schema_rest.AcceptAnswerReq.t) :
  handler_rest.BindAndCheck_AcceptAnswerReq (rest_handler rs) w = ((false, req0), w1) →
  single_check_subjects (shared_events (trace_rest (AcceptAnswer ac pk rs) w))
  = [(middleware.GetLoginUserIDFromContext (pkg_middleware pk) w1,
      permission.AnswerAccept,
      uid_DeShortID pk (schema_rest.AcceptAnswerReq.QuestionID req0))].
Proof.
  intros Hbind. unfold trace_rest.
  unfold_rest; unfold_calls; unfold N_bind, N_ret; simpl. rewrite Hbind; simpl.
  repeat step; done.
Qed.

(** X5. The verdict of that check decides [AcceptAnswer]: on [false] the
    handler answers [Forbidden] and does not call the answer service; on
    [true] it calls the service once, on behalf of the user of the session,
    and answers with the error the service returned. *)
Theorem X5_accept_decided_by_the_check (w : W) (can : bool) :
  (permission.AnswerAccept, can, None)
    ∈ single_checks (shared_events (trace_rest (AcceptAnswer ac pk rs) w)) →
  if can
  then ∃ req err,
         acceptances (trace_rest (AcceptAnswer ac pk rs) w) = [(req, err)]
         ∧ logins (shared_events (trace_rest (AcceptAnswer ac pk rs) w))
           = [schema_rest.AcceptAnswerReq.UserID req]
         ∧ answers (trace_rest (AcceptAnswer ac pk rs) w) = [(err, inl NoData)]
  else answers (trace_rest (AcceptAnswer ac pk rs) w)
       = [(Some (errors.Forbidden reason.RankFailToMeetTheCondition), inl NoData)]
       ∧ acceptances (trace_rest (AcceptAnswer ac pk rs) w) = [].
Proof. runs (AcceptAnswer ac pk rs) w; intros H1; crush; eauto. Qed.

(** X6. [GetAnswerInfo] looks up the answer named by the [id] parameter of
    the query, its short form undone, for the user of the session, and
    answers exactly once: with the error of the lookup; with an empty plain
    error when there is no such answer; with the answer and its question
    otherwise. *)
Theorem X6_get_answer_info (w : W) :
  ∃ v userID info question has err,
    queries (trace_rest (GetAnswerInfo ac pk rs) w) = [("id", v)]
    ∧ logins (shared_events (trace_rest (GetAnswerInfo ac pk rs) w)) = [userID]
    ∧ lookups (shared_events (trace_rest (GetAnswerInfo ac pk rs) w))
      = [(uid_DeShortID pk v, userID, info, question, has, err)]
    ∧ answers (trace_rest (GetAnswerInfo ac pk rs) w)
      = [ match err with
          | Some e => (Some e, inr EmptyH)
          | None => if has then (None, inr (GetAnswerInfoResp info question))
                    else (Some (errors.Plain ""), inr EmptyH)
          end ].
Proof. runs (GetAnswerInfo ac pk rs) w; repeat eexists. Qed.

(** X7. The rights [AnswerList] passes to the search are the verdicts of the
    batch check, in the order edit, delete, recover: what the body said
    about them does not count, and neither does who owns the answers. *)
Theorem X7_list_rights_are_the_verdicts (w : W)
    (req : schema_rest.AnswerListReq.t) (err : option errors.error) :
  (req, err) ∈ searches (trace_rest (AnswerList ac pk rs) w) →
  ∃ can : list bool,
    batch_checks (shared_events (trace_rest (AnswerList ac pk rs) w)) = [(can, None)]
    ∧ can !! 0%nat = Some (schema_rest.AnswerListReq.CanEdit req)
    ∧ can !! 1%nat = Some (schema_rest.AnswerListReq.CanDelete req)
    ∧ can !! 2%nat = Some (schema_rest.AnswerListReq.CanRecover req).
Proof. runs (AnswerList ac pk rs) w; intros H1; crush; eauto. Qed.

(** X8. A handler panics exactly when the batch check returns, without
    error, fewer verdicts than the handler reads off it (one in
    [RecoverAnswer], three in [AnswerList]); it has then answered nothing.
    [GetAnswerInfo] and [AcceptAnswer] never panic. *)
Theorem X8_panic_iff_short_batch (h : reading) (w : W) :
  (outcome_rest (rest_handler_of h ac pk rs) w = Panic
   ↔ ∃ can : list bool,
       (can, None) ∈ batch_checks (shared_events
                                     (trace_rest (rest_handler_of h ac pk rs) w))
       ∧ (length can < verdicts_read h)%nat)
  ∧ (outcome_rest (rest_handler_of h ac pk rs) w = Panic →
     answers (trace_rest (rest_handler_of h ac pk rs) w) = []).
Proof.
  destruct h; simpl.
  - runs (RecoverAnswer ac pk rs) w.
    all: (split; [split|]); try done.
    all: try (intros (can & Hin & Hlen); crush).
    all: try (intros _; eexists; split; [apply list_elem_of_here|]).
    all: try match goal with
             | H : ?l !! _ = Some _ |- _ => apply lookup_lt_Some in H; lia
             | H : ?l !! _ = None |- _ => apply lookup_ge_None in H; lia
             end.
  - runs (GetAnswerInfo ac pk rs) w.
    all: (split; [split|]); try done.
    all: intros (can & Hin & Hlen); crush.
  - runs (AnswerList ac pk rs) w.
    all: (split; [split|]); try done.
    all: try (intros (can & Hin & Hlen); crush).
    all: try (intros _; eexists; split; [apply list_elem_of_here|]).
    all: try match goal with
             | H : ?l !! 2%nat = Some _ |- _ => apply lookup_lt_Some in H; lia
             | H : ?l !! _ = None |- _ => apply lookup_ge_None in H; lia
             end.
  - runs (AcceptAnswer ac pk rs) w.
    all: (split; [split|]); try done.
    all: intros (can & Hin & Hlen); crush.
Qed.

(** X9. No handler answers twice; and every one of the four answers exactly
    once unless it panicked or, where it binds a body, the binding failed
    (and [handler.BindAndCheck] answered). *)
Theorem X9_rest_answers_once (h : reading) (w : W) :
  (length (answers (trace_rest (rest_handler_of h ac pk rs) w)) ≤ 1)%nat
  ∧ (outcome_rest (rest_handler_of h ac pk rs) w ≠ Panic →
     (h ≠ Getting →
      false ∈ bindings (shared_events (trace_rest (rest_handler_of h ac pk rs) w))) →
     length (answers (trace_rest (rest_handler_of h ac pk rs) w)) = 1%nat).
Proof.
  destruct h; simpl.
  - runs (RecoverAnswer ac pk rs) w; (split; [lia|]); intros H1 H2; try done.
    all: specialize (H2 ltac:(done)); crush.
  - runs (GetAnswerInfo ac pk rs) w; (split; [lia|]); done.
  - runs (AnswerList ac pk rs) w; (split; [lia|]); intros H1 H2; try done.
    all: specialize (H2 ltac:(done)); crush.
  - runs (AcceptAnswer ac pk rs) w; (split; [lia|]); intros H1 H2; try done.
    all: specialize (H2 ltac:(done)); crush.
Qed.

(** X10. When the permission check itself fails, the handler answers with the
    error of the check and stops: the answer service is not called. *)
Theorem X10_rest_check_error_stops (h : reading) (w : W) (e : errors.error) :
  let t := trace_rest (rest_handler_of h ac pk rs) w in
  (∃ can : list bool, (can, Some e) ∈ batch_checks (shared_events t))
  ∨ (∃ act can, (act, can, Some e) ∈ single_checks (shared_events t)) →
  answers t = [(Some e, inl NoData)]
  ∧ recoveries t = [] ∧ searches t = [] ∧ acceptances t = [].
Proof.
  destruct h; simpl.
  - runs (RecoverAnswer ac pk rs) w; intros [(? & H1)|(? & ? & H1)]; crush.
  - runs (GetAnswerInfo ac pk rs) w; intros [(? & H1)|(? & ? & H1)]; crush.
  - runs (AnswerList ac pk rs) w; intros [(? & H1)|(? & ? & H1)]; crush.
  - runs (AcceptAnswer ac pk rs) w; intros [(? & H1)|(? & ? & H1)]; crush.
Qed.
End rest.

(** *** The theorems above on the scripted world *)

Lemma X1_unprivileged_cannot_recover :
  ([false], None)
    ∈ batch_checks (shared_events
        (trace_rest (RecoverAnswer script.ac script.pk script_rest.rs)
                    sample.unprivileged))
  ∧ recoveries (trace_rest (RecoverAnswer script.ac script.pk script_rest.rs)
                           sample.unprivileged) = [].
Proof.
  assert (([false], None)
          ∈ batch_checks (shared_events
              (trace_rest (RecoverAnswer script.ac script.pk script_rest.rs)
                          sample.unprivileged))) as Hin.
  { vm_compute. apply list_elem_of_here. }
  split; [exact Hin|].
  exact (proj2 (X1_recover_refused script.ac script.pk script_rest.rs
                  sample.unprivileged [false] Hin eq_refl)).
Defined.

Lemma X3_recovers_for_session_user :
  schema_rest.RecoverAnswerReq.UserID script_rest.recoverReq = "somebody else"
  ∧ ∃ err,
      recoveries (trace_rest (RecoverAnswer script.ac script.pk script_rest.rs)
                             script.ordinary)
      = [({| schema_rest.RecoverAnswerReq.AnswerID := "a1";
             schema_rest.RecoverAnswerReq.UserID := "u1" |}, err)]
      ∧ answers (trace_rest (RecoverAnswer script.ac script.pk script_rest.rs)
                            script.ordinary) = [(err, inl NoData)].
Proof.
  split; [reflexivity|].
  refine (X3_recover_permitted script.ac script.pk script_rest.rs script.ordinary
            script.ordinary script_rest.recoverReq [true] eq_refl _ eq_refl).
  vm_compute. apply list_elem_of_here.
Defined.

Lemma X4_accept_asks_about_q1 :
  single_check_subjects
    (shared_events (trace_rest (AcceptAnswer script.ac script.pk script_rest.rs)
                               script.ordinary))
  = [("u1", permission.AnswerAccept, "q1")].
Proof.
  exact (X4_accept_asks_about_the_question script.ac script.pk script_rest.rs
           script.ordinary script.ordinary script_rest.acceptReq eq_refl).
Defined.

Lemma X5_unprivileged_cannot_accept :
  (permission.AnswerAccept, false, None)
    ∈ single_checks (shared_events
        (trace_rest (AcceptAnswer script.ac script.pk script_rest.rs)
                    sample.unprivileged))
  ∧ acceptances (trace_rest (AcceptAnswer script.ac script.pk script_rest.rs)
                            sample.unprivileged) = [].
Proof.
  assert ((permission.AnswerAccept, false, None)
          ∈ single_checks (shared_events
              (trace_rest (AcceptAnswer script.ac script.pk script_rest.rs)
                          sample.unprivileged))) as Hin.
  { vm_compute. apply list_elem_of_here. }
  split; [exact Hin|].
  exact (proj2 (X5_accept_decided_by_the_check script.ac script.pk script_rest.rs
                  sample.unprivileged false Hin)).
Defined.

Lemma X7_body_rights_overwritten :
  schema_rest.AnswerListReq.CanEdit script_rest.listReq = true
  ∧ ∃ req : schema_rest.AnswerListReq.t,
      (req, None) ∈ searches (trace_rest (AnswerList script.ac script.pk script_rest.rs)
                                         sample.unprivileged)
      ∧ ∃ can : list bool,
          batch_checks (shared_events
            (trace_rest (AnswerList script.ac script.pk script_rest.rs)
                        sample.unprivileged)) = [(can, None)]
          ∧ can !! 0%nat = Some (schema_rest.AnswerListReq.CanEdit req)
          ∧ can !! 1%nat = Some (schema_rest.AnswerListReq.CanDelete req)
          ∧ can !! 2%nat = Some (schema_rest.AnswerListReq.CanRecover req).
Proof.
  split; [reflexivity|].
  exists {| schema_rest.AnswerListReq.QuestionID := "q1";
            schema_rest.AnswerListReq.Order := "default";
            schema_rest.AnswerListReq.Page := 1;
            schema_rest.AnswerListReq.PageSize := 20;
            schema_rest.AnswerListReq.UserID := "u1";
            schema_rest.AnswerListReq.CanEdit := false;
            schema_rest.AnswerListReq.CanDelete := false;
            schema_rest.AnswerListReq.CanRecover := false |}.
  match goal with
  | |- ?H ∧ _ => assert H as Hin; [vm_compute; apply list_elem_of_here|]
  end.
  split; [exact Hin|].
  exact (X7_list_rights_are_the_verdicts script.ac script.pk script_rest.rs
           sample.unprivileged _ None Hin).
Defined.

Lemma X8_short_batch_panics :
  outcome_rest (rest_handler_of Listing script.ac script.pk script_rest.rs)
               script_rest.short_batch = Panic.
Proof.
  apply (X8_panic_iff_short_batch script.ac script.pk script_rest.rs Listing
           script_rest.short_batch).
  exists [true; true]. split; [|simpl; lia].
  vm_compute. apply list_elem_of_here.
Defined.

Lemma X9_list_answers_once :
  length (answers (trace_rest (rest_handler_of Listing script.ac script.pk script_rest.rs)
                              script.ordinary)) = 1%nat.
Proof.
  apply (X9_rest_answers_once script.ac script.pk script_rest.rs Listing script.ordinary).
  - vm_compute. discriminate.
  - intros _. vm_compute. apply list_elem_of_here.
Defined.

Lemma X10_rank_down_stops_listing :
  searches (trace_rest
              (rest_handler_of Listing script_rest.ac_rank_down script.pk script_rest.rs)
              script.ordinary) = [].
Proof.
  apply (X10_rest_check_error_stops script_rest.ac_rank_down script.pk script_rest.rs
           Listing script.ordinary script_rest.rank_down).
  left. exists []. vm_compute. apply list_elem_of_here.
Defined.

(** ** More on the mutating handlers *)

Section more.
Context {W : Type} (ac : AnswerController W) (pk : Packages W).

(** X11. Every domain mutation, the status change of the admin included, is
    invoked on behalf of the user of the session: the user id in the request
    handed to the answer service is the one read from the gin context,
    whatever the body carried. *)
Theorem X11_mutation_on_behalf_of_session_user (w : W) :
  (∀ h e, e ∈ mutations (trace (handler_of h ac pk) w) →
          ∃ userID, logins (trace (handler_of h ac pk) w) = [userID]
                    ∧ user_of e = Some userID)
  ∧ (∀ e, e ∈ mutations (trace (AdminUpdateAnswerStatus ac pk) w) →
          ∃ userID, logins (trace (AdminUpdateAnswerStatus ac pk) w) = [userID]
                    ∧ user_of e = Some userID).
Proof.
  split; [intros [] e; simpl|intros e].
  - runs (RemoveAnswer ac pk) w; intros H1; crush; eauto.
  - runs (AddAnswer ac pk) w; intros H1; crush; eauto.
  - runs (UpdateAnswer ac pk) w; intros H1; crush; eauto.
  - runs (AdminUpdateAnswerStatus ac pk) w; intros H1; crush; eauto.
Qed.

(** X12. A captcha that does not verify ends the handler: the answer is
    [BadRequest] with the form error field [captcha_code], no domain
    mutation is invoked and no attempt recorded; in [RemoveAnswer] not even
    the permission is evaluated. *)
Theorem X12_failed_captcha_stops (h : mutating) (w : W) (kind : entity.CaptchaAction) :
  (kind, false) ∈ verifications (trace (handler_of h ac pk) w) →
  (∃ msg, responses (trace (handler_of h ac pk) w) = [captcha_rejection msg])
  ∧ mutations (trace (handler_of h ac pk) w) = []
  ∧ records (trace (handler_of h ac pk) w) = []
  ∧ (h = Removing → batch_checks (trace (handler_of h ac pk) w) = []
                    ∧ owner_lookups (trace (handler_of h ac pk) w) = []).
Proof.
  unfold captcha_rejection. destruct h; simpl.
  - runs (RemoveAnswer ac pk) w; intros H1; crush; repeat split; eauto; done.
  - runs (AddAnswer ac pk) w; intros H1; crush; repeat split; eauto; done.
  - runs (UpdateAnswer ac pk) w; intros H1; crush; repeat split; eauto; done.
Qed.

(** X13. A mutating handler never answers twice, and it answers exactly once
    whenever the body bound, the Duplicate Suppressor did not reject and no
    index expression panicked. *)
Theorem X13_mutating_answers_once (h : mutating) (w : W) :
  (length (responses (trace (handler_of h ac pk) w)) ≤ 1)%nat
  ∧ (outcome (handler_of h ac pk) w ≠ Panic →
     false ∈ bindings (trace (handler_of h ac pk) w) →
     (∀ key, (true, key) ∉ suppressions (trace (handler_of h ac pk) w)) →
     length (responses (trace (handler_of h ac pk) w)) = 1%nat).
Proof.
  destruct h; simpl.
  - runs (RemoveAnswer ac pk) w; (split; [lia|]); intros H1 H2 H3; crush.
  - runs (AddAnswer ac pk) w; (split; [lia|]); intros H1 H2 H3; crush.
    all: exfalso; eapply H3; apply list_elem_of_here.
  - runs (UpdateAnswer ac pk) w; (split; [lia|]); intros H1 H2 H3; crush.
Qed.

(** X14. An attempt is recorded at most once, under the kind of the handler
    and the user of the session, and only when the captcha was verified and
    passed and the domain mutation was invoked; in [AddAnswer] and
    [UpdateAnswer] only when the mutation succeeded. *)
Theorem X14_record_provenance (h : mutating) (w : W)
    (r : entity.CaptchaAction * string) :
  r ∈ records (trace (handler_of h ac pk) w) →
  records (trace (handler_of h ac pk) w) = [r]
  ∧ (∃ userID, logins (trace (handler_of h ac pk) w) = [userID]
               ∧ r = (kind_of h, userID))
  ∧ verifications (trace (handler_of h ac pk) w) = [(kind_of h, true)]
  ∧ ∃ e, mutations (trace (handler_of h ac pk) w) = [e]
         ∧ (h ≠ Removing → error_of e = None).
Proof.
  destruct h; simpl.
  - runs (RemoveAnswer ac pk) w; intros H1; crush; repeat first [done | esplit].
  - runs (AddAnswer ac pk) w; intros H1; crush; repeat first [done | esplit].
  - runs (UpdateAnswer ac pk) w; intros H1; crush; repeat first [done | esplit].
Qed.

(** X15. The error of the domain mutation is the answer: when the answer
    service returns an error, the handler answers with exactly that error
    and with nothing else. *)
Theorem X15_mutation_error_is_the_answer (h : mutating) (w : W) (e : event)
    (err : errors.error) :
  e ∈ mutations (trace (handler_of h ac pk) w) →
  error_of e = Some err →
  responses (trace (handler_of h ac pk) w) = [(Some err, NoData)].
Proof.
  destruct h; simpl.
  - runs (RemoveAnswer ac pk) w; intros H1 H2; crush; simpl in *; by simplify_eq.
  - runs (AddAnswer ac pk) w; intros H1 H2; crush; simpl in *; by simplify_eq.
  - runs (UpdateAnswer ac pk) w; intros H1 H2; crush; simpl in *; by simplify_eq.
Qed.

(** X16. Success is never answered without a successful mutation: whenever a
    mutating handler answers without error, the answer service was called
    once and returned no error. *)
Theorem X16_success_means_mutated (h : mutating) (w : W) (data : RespData) :
  (None, data) ∈ responses (trace (handler_of h ac pk) w) →
  ∃ e, mutations (trace (handler_of h ac pk) w) = [e] ∧ error_of e = None.
Proof.
  destruct h; simpl.
  - runs (RemoveAnswer ac pk) w; intros H1; crush; repeat first [done | esplit].
  - runs (AddAnswer ac pk) w; intros H1; crush; repeat first [done | esplit].
  - runs (UpdateAnswer ac pk) w; intros H1; crush; repeat first [done | esplit].
Qed.

(** X17. When [UpdateAnswer] succeeds it tells the user to wait for review
    unless the batch check granted [AnswerEditWithoutReview] (the second
    verdict) or the user owns the answer: the owner never waits. *)
Theorem X17_update_wait_for_review (w : W) (wait : bool) :
  (None, AnswerUpdateResp wait) ∈ responses (trace (UpdateAnswer ac pk) w) →
  ∃ (can : list bool) (withoutReview owner : bool),
    batch_checks (trace (UpdateAnswer ac pk) w) = [(can, None)]
    ∧ can !! 1%nat = Some withoutReview
    ∧ owner_lookups (trace (UpdateAnswer ac pk) w) = [owner]
    ∧ wait = negb (withoutReview || owner).
Proof. runs (UpdateAnswer ac pk) w; intros H1; crush; eauto 10. Qed.

(** X18. A mutating handler panics exactly when the batch check returns,
    without error, fewer verdicts than the handler reads off it (one in
    [RemoveAnswer], three in [AddAnswer] and [UpdateAnswer]); it has then
    answered nothing, invoked no domain mutation and recorded no attempt. *)
Theorem X18_mutating_panic_iff_short_batch (h : mutating) (w : W) :
  (outcome (handler_of h ac pk) w = Panic
   ↔ ∃ can : list bool,
       (can, None) ∈ batch_checks (trace (handler_of h ac pk) w)
       ∧ (length can < verdicts_indexed h)%nat)
  ∧ (outcome (handler_of h ac pk) w = Panic →
     responses (trace (handler_of h ac pk) w) = []
     ∧ mutations (trace (handler_of h ac pk) w) = []
     ∧ records (trace (handler_of h ac pk) w) = []).
Proof.
  destruct h; simpl.
  - runs (RemoveAnswer ac pk) w.
    all: try in_range.
    all: (split; [split|]); try done.
    all: try (intros (can & Hin & Hlen); crush).
    all: try (intros _; eexists; split; [apply list_elem_of_here|]).
    all: try match goal with
             | H : ?l !! _ = Some _ |- _ => apply lookup_lt_Some in H; lia
             | H : ?l !! _ = None |- _ => apply lookup_ge_None in H; lia
             end.
  - runs (AddAnswer ac pk) w.
    all: try in_range.
    all: (split; [split|]); try done.
    all: try (intros (can & Hin & Hlen); crush).
    all: try (intros _; eexists; split; [apply list_elem_of_here|]).
    all: try match goal with
             | H : ?l !! 2%nat = Some _ |- _ => apply lookup_lt_Some in H; lia
             | H : ?l !! _ = None |- _ => apply lookup_ge_None in H; lia
             end.
  - runs (UpdateAnswer ac pk) w.
    all: try in_range.
    all: (split; [split|]); try done.
    all: try (intros (can & Hin & Hlen); crush).
    all: try (intros _; eexists; split; [apply list_elem_of_here|]).
    all: try match goal with
             | H : ?l !! 2%nat = Some _ |- _ => apply lookup_lt_Some in H; lia
             | H : ?l !! _ = None |- _ => apply lookup_ge_None in H; lia
             end.
Qed.

(** X19. When the permission check itself fails, a mutating handler answers
    with the error of the check and stops: no domain mutation, no attempt
    recorded. *)
Theorem X19_check_error_stops (h : mutating) (w : W) (e : errors.error) :
  (∃ can : list bool, (can, Some e) ∈ batch_checks (trace (handler_of h ac pk) w))
  ∨ (∃ act can, (act, can, Some e) ∈ single_checks (trace (handler_of h ac pk) w)) →
  responses (trace (handler_of h ac pk) w) = [(Some e, NoData)]
  ∧ mutations (trace (handler_of h ac pk) w) = []
  ∧ records (trace (handler_of h ac pk) w) = [].
Proof.
  destruct h; simpl.
  - runs (RemoveAnswer ac pk) w; intros [(? & H1)|(? & ? & H1)]; crush.
  - runs (AddAnswer ac pk) w; intros [(? & H1)|(? & ? & H1)]; crush.
  - runs (UpdateAnswer ac pk) w; intros [(? & H1)|(? & ? & H1)]; crush.
Qed.
End more.

(** *** The theorems above on the scripted world *)

Lemma X11_insertion_for_session_user :
  ∃ e, e ∈ mutations (trace (handler_of Adding script.ac script.pk) script.ordinary)
       ∧ ∃ userID,
           logins (trace (handler_of Adding script.ac script.pk) script.ordinary)
           = [userID]
           ∧ user_of e = Some userID.
Proof.
  eexists.
  match goal with
  | |- ?H ∧ _ => assert H as Hin; [vm_compute; apply list_elem_of_here|]
  end.
  split; [exact Hin|].
  exact (proj1 (X11_mutation_on_behalf_of_session_user script.ac script.pk
                  script.ordinary) Adding _ Hin).
Defined.

Lemma X12_wrong_captcha_inserts_nothing :
  (entity.CaptchaActionAnswer, false)
    ∈ verifications (trace (handler_of Adding script.ac script.pk)
                           script_rest.wrong_captcha)
  ∧ mutations (trace (handler_of Adding script.ac script.pk)
                     script_rest.wrong_captcha) = [].
Proof.
  match goal with
  | |- ?H ∧ _ => assert H as Hin; [vm_compute; apply list_elem_of_here|]
  end.
  split; [exact Hin|].
  exact (proj1 (proj2 (X12_failed_captcha_stops script.ac script.pk Adding
                         script_rest.wrong_captcha _ Hin))).
Defined.

Lemma X13_insertion_answered_once :
  length (responses (trace (handler_of Adding script.ac script.pk) script.ordinary))
  = 1%nat.
Proof.
  apply (X13_mutating_answers_once script.ac script.pk Adding script.ordinary).
  - vm_compute. discriminate.
  - vm_compute. apply list_elem_of_here.
  - assert (suppressions (trace (handler_of Adding script.ac script.pk) script.ordinary)
            = [(false, "q1")]) as -> by (vm_compute; reflexivity).
    intros key [Hin|Hin]%elem_of_cons; [discriminate|by apply elem_of_nil in Hin].
Defined.

Lemma X14_insertion_recorded_for_u1 :
  (entity.CaptchaActionAnswer, "u1")
    ∈ records (trace (handler_of Adding script.ac script.pk) script.ordinary)
  ∧ verifications (trace (handler_of Adding script.ac script.pk) script.ordinary)
    = [(entity.CaptchaActionAnswer, true)].
Proof.
  match goal with
  | |- ?H ∧ _ => assert H as Hin; [vm_compute; apply list_elem_of_here|]
  end.
  split; [exact Hin|].
  exact (proj1 (proj2 (proj2 (X14_record_provenance script.ac script.pk Adding
                                script.ordinary _ Hin)))).
Defined.

Lemma X15_storage_failure_answered :
  ∃ e, e ∈ mutations (trace (handler_of Adding script.ac script.pk) sample.failing)
       ∧ responses (trace (handler_of Adding script.ac script.pk) sample.failing)
         = [(Some (errors.Plain "storage failure"), NoData)].
Proof.
  eexists.
  match goal with
  | |- ?H ∧ _ => assert H as Hin; [vm_compute; apply list_elem_of_here|]
  end.
  split; [exact Hin|].
  exact (X15_mutation_error_is_the_answer script.ac script.pk Adding sample.failing
           _ (errors.Plain "storage failure") Hin eq_refl).
Defined.

Lemma X16_update_success_after_update :
  (None, AnswerUpdateResp false)
    ∈ responses (trace (handler_of Updating script.ac script.pk) script.ordinary)
  ∧ ∃ e, mutations (trace (handler_of Updating script.ac script.pk) script.ordinary)
         = [e]
         ∧ error_of e = None.
Proof.
  match goal with
  | |- ?H ∧ _ => assert H as Hin; [vm_compute; apply list_elem_of_here|]
  end.
  split; [exact Hin|].
  exact (X16_success_means_mutated script.ac script.pk Updating script.ordinary
           _ Hin).
Defined.

Lemma X17_owner_does_not_wait :
  (None, AnswerUpdateResp false)
    ∈ responses (trace (UpdateAnswer script.ac script.pk)
                       script_rest.owner_without_rank)
  ∧ ∃ (can : list bool) (withoutReview owner : bool),
      batch_checks (trace (UpdateAnswer script.ac script.pk)
                          script_rest.owner_without_rank) = [(can, None)]
      ∧ can !! 1%nat = Some withoutReview
      ∧ owner_lookups (trace (UpdateAnswer script.ac script.pk)
                             script_rest.owner_without_rank) = [owner]
      ∧ false = negb (withoutReview || owner).
Proof.
  match goal with
  | |- ?H ∧ _ => assert H as Hin; [vm_compute; apply list_elem_of_here|]
  end.
  split; [exact Hin|].
  exact (X17_update_wait_for_review script.ac script.pk
           script_rest.owner_without_rank false Hin).
Defined.

Lemma X18_short_batch_panics_insertion :
  outcome (handler_of Adding script.ac script.pk) script_rest.short_batch = Panic.
Proof.
  apply (X18_mutating_panic_iff_short_batch script.ac script.pk Adding
           script_rest.short_batch).
  exists [true; true]. split; [|simpl; lia].
  vm_compute. apply list_elem_of_here.
Defined.

Lemma X19_rank_down_stops_insertion :
  mutations (trace (handler_of Adding script_rest.ac_rank_down script.pk)
                   script.ordinary) = [].
Proof.
  apply (X19_check_error_stops script_rest.ac_rank_down script.pk Adding
           script.ordinary script_rest.rank_down).
  left. exists []. vm_compute. apply list_elem_of_here.
Defined.

(** * The theme store *)

Section theme.
Import themeSetting.
Variable DEFAULT_THEME_COLOR : string.

Lemma update_inv (state params state' params' : AdminSettingsTheme) :
  update DEFAULT_THEME_COLOR state params = Some (state', params') →
  ∃ colors,
    theme_config params !! "default" = Some colors
    ∧ state' = spread state params'
    ∧ params' = (if negb (startsWith (navbar_style colors) "#")
                 then set_default_navbar_style DEFAULT_THEME_COLOR colors params
                 else params).
Proof.
  unfold update. destruct (theme_config params !! "default") as [colors|]; [|done].
  intros [= <- <-]. by exists colors.
Qed.

(** The object [update] leaves has a hexadecimal navbar colour, and the
    store holds its themes. *)
Lemma update_params_hex (state params state' params' : AdminSettingsTheme) :
  startsWith DEFAULT_THEME_COLOR "#" = true →
  update DEFAULT_THEME_COLOR state params = Some (state', params') →
  navbar_is_hex params' ∧ theme_config state' = theme_config params'.
Proof.
  intros Hdefault Hupdate.
  destruct (update_inv _ _ _ _ Hupdate) as (colors & Hcolors & -> & ->).
  split; [|done].
  destruct (startsWith (navbar_style colors) "#") eqn:Hstarts; simpl.
  - by exists colors.
  - eexists. split; [apply lookup_insert_eq|done].
Qed.

(** X20. Provided the default colour is a hexadecimal colour, whatever
    [update] stores has a hexadecimal navbar colour in its default theme, and
    so has the object the caller passed, which [update] repairs in place. *)
Theorem X20_update_repairs_navbar (state params state' params' : AdminSettingsTheme) :
  startsWith DEFAULT_THEME_COLOR "#" = true →
  update DEFAULT_THEME_COLOR state params = Some (state', params') →
  navbar_is_hex state' ∧ navbar_is_hex params'.
Proof.
  intros Hdefault Hupdate.
  destruct (update_params_hex _ _ _ _ Hdefault Hupdate) as [Hhex Hconfig].
  split; [|exact Hhex].
  destruct Hhex as (colors & Hcolors & Hstarts).
  exists colors. by rewrite Hconfig.
Qed.

(** X21. [update] repairs nothing but the navbar colour of the default
    theme: the primary colour of that theme, the other themes, the theme
    name, the options and the colour scheme are stored as passed, and a
    navbar colour that starts with [#] is stored as passed too. *)
Theorem X21_update_keeps_the_rest (state params state' params' : AdminSettingsTheme) :
  update DEFAULT_THEME_COLOR state params = Some (state', params') →
  theme state' = theme params
  ∧ theme_options state' = theme_options params
  ∧ color_scheme state' = color_scheme params
  ∧ (∀ name, name ≠ "default" →
       theme_config state' !! name = theme_config params !! name)
  ∧ ∃ colors colors',
      theme_config params !! "default" = Some colors
      ∧ theme_config state' !! "default" = Some colors'
      ∧ primary_color colors' = primary_color colors
      ∧ (startsWith (navbar_style colors) "#" = true → colors' = colors).
Proof.
  intros Hupdate.
  destruct (update_inv _ _ _ _ Hupdate) as (colors & Hcolors & -> & ->).
  destruct (startsWith (navbar_style colors) "#") eqn:Hstarts; simpl.
  - repeat split; try done. by exists colors, colors.
  - repeat split; try done.
    + intros name Hname. by apply lookup_insert_ne.
    + eexists colors, _. split; [done|]. split; [apply lookup_insert_eq|].
      split; [done|]. intros Hhex. unfold startsWith in *. congruence.
Qed.

(** X22. [update] is idempotent: passing the object it has repaired once
    more leaves the store and the object as they are. *)
Theorem X22_update_idempotent (state params state' params' : AdminSettingsTheme) :
  update DEFAULT_THEME_COLOR state params = Some (state', params') →
  update DEFAULT_THEME_COLOR state' params' = Some (state', params').
Proof.
  intros Hupdate.
  destruct (update_inv _ _ _ _ Hupdate) as (colors & Hcolors & -> & ->).
  destruct (startsWith (navbar_style colors) "#") eqn:Hstarts; simpl.
  - unfold update. by rewrite Hcolors, Hstarts.
  - unfold update; simpl. rewrite lookup_insert_eq; simpl.
    destruct (startsWith DEFAULT_THEME_COLOR "#"); simpl; [done|].
    unfold set_default_navbar_style, spread; simpl.
    by rewrite insert_insert_eq.
Qed.

(** X23. Provided the default colour is a hexadecimal colour, the navbar
    colour of the default theme in the store is one from the start and
    after any series of calls of [update], the failing ones included. *)
Theorem X23_store_navbar_always_hex (calls : list AdminSettingsTheme) :
  startsWith DEFAULT_THEME_COLOR "#" = true →
  navbar_is_hex (updates DEFAULT_THEME_COLOR (initial DEFAULT_THEME_COLOR) calls).
Proof.
  intros Hdefault.
  assert (navbar_is_hex (initial DEFAULT_THEME_COLOR)) as Hinit.
  { eexists. split; [apply lookup_singleton_eq|done]. }
  revert Hinit. generalize (initial DEFAULT_THEME_COLOR).
  unfold updates. induction calls as [|params calls IH]; intros state Hstate; [done|].
  simpl. apply IH.
  destruct (update DEFAULT_THEME_COLOR state params) as [[state' params']|] eqn:Hupdate;
    [|done].
  destruct (update_params_hex _ _ _ _ Hdefault Hupdate)
    as [(colors & Hcolors & Hstarts) Hconfig].
  exists colors. by rewrite Hconfig.
Qed.
End theme.

Section theme_on_legacy_settings.
Import themeSetting.

Lemma X20_legacy_navbar_repaired :
  startsWith "#0033ff" "#" = true
  ∧ match update "#0033ff" (initial "#0033ff") legacy with
    | Some (state', params') => navbar_is_hex state' ∧ navbar_is_hex params'
    | None => False
    end.
Proof.
  split; [reflexivity|].
  destruct (update "#0033ff" (initial "#0033ff") legacy) as [[state' params']|]
    eqn:Hupdate.
  - exact (X20_update_repairs_navbar "#0033ff" (initial "#0033ff") legacy
             state' params' eq_refl Hupdate).
  - vm_compute in Hupdate. discriminate Hupdate.
Defined.

Lemma X21_legacy_primary_colour_kept :
  match update "#0033ff" (initial "#0033ff") legacy with
  | Some (state', _) =>
      ∃ colors colors',
        theme_config legacy !! "default" = Some colors
        ∧ theme_config state' !! "default" = Some colors'
        ∧ primary_color colors' = primary_color colors
        ∧ (startsWith (navbar_style colors) "#" = true → colors' = colors)
  | None => False
  end.
Proof.
  destruct (update "#0033ff" (initial "#0033ff") legacy) as [[state' params']|]
    eqn:Hupdate.
  - exact (proj2 (proj2 (proj2 (proj2
             (X21_update_keeps_the_rest "#0033ff" (initial "#0033ff") legacy
                state' params' Hupdate))))).
  - vm_compute in Hupdate. discriminate Hupdate.
Defined.

Lemma X22_legacy_repaired_once :
  match update "#0033ff" (initial "#0033ff") legacy with
  | Some (state', params') =>
      update "#0033ff" state' params' = Some (state', params')
  | None => False
  end.
Proof.
  destruct (update "#0033ff" (initial "#0033ff") legacy) as [[state' params']|]
    eqn:Hupdate.
  - exact (X22_update_idempotent "#0033ff" (initial "#0033ff") legacy
             state' params' Hupdate).
  - vm_compute in Hupdate. discriminate Hupdate.
Defined.

Lemma X23_store_after_legacy_settings :
  startsWith "#0033ff" "#" = true
  ∧ navbar_is_hex (updates "#0033ff" (initial "#0033ff") [legacy; legacy]).
Proof.
  split; [reflexivity|].
  exact (X23_store_navbar_always_hex "#0033ff" [legacy; legacy] eq_refl).
Defined.
End theme_on_legacy_settings.

(** * The question list *)

Section question_list.
Import QuestionList.

Lemma findIndex_from_none {A} (f : A → bool) (l : Datatypes.list A) (i : Z) :
  0 ≤ i → (findIndex_from f l i = -1 ↔ Forall (λ x, f x = false) l).
Proof.
  revert i. induction l as [|x l IH]; intros i Hi; simpl.
  - split; [constructor|done].
  - destruct (f x) eqn:Hfx.
    + split; [lia|]. intros Hall. apply Forall_cons in Hall as [Hx _]. congruence.
    + rewrite IH by lia. split; [by constructor|]. by intros [_ ?]%Forall_cons.
Qed.

Lemma not_pinned_spec (pinned : Datatypes.list Question) (v : Question) :
  (findIndex (λ p, String.eqb (id p) (id v)) pinned =? -1) = true
  ↔ id v ∉ id <$> pinned.
Proof.
  rewrite Z.eqb_eq. unfold findIndex. rewrite findIndex_from_none by done.
  rewrite Forall_forall, list_elem_of_fmap. split.
  - intros Hall (p & Heq & Hin). specialize (Hall p Hin).
    apply String.eqb_neq in Hall. congruence.
  - intros Hnot p Hin. apply String.eqb_neq. intros Heq. apply Hnot. by exists p.
Qed.

Lemma filter_cb_ok {A} (f : A → bool) (l : Datatypes.list A) :
  filter_cb (λ v, Ok (f v)) l = Ok (filter (λ v, f v = true) l).
Proof.
  induction l as [|x l IH]; simpl; [done|]. rewrite IH.
  rewrite filter_cons. destruct (f x); simpl; try case_decide; done.
Qed.

Lemma filter_none_pinned (l : Datatypes.list Question) :
  filter (λ v, id v ∉ id <$> []) l = l.
Proof.
  induction l as [|x l IH]; [done|].
  rewrite filter_cons, decide_True by (simpl; apply not_elem_of_nil). by f_equal.
Qed.

(** What [renderData] is when the list is there: the questions whose id is
    not the id of a pinned one. *)
Lemma renderData_spec (source : Source) (d : Data) (l pinned : Datatypes.list Question) :
  list d = Some l →
  pinData source (Some d) = Some pinned →
  renderData source (Some d) = Ok (Some (filter (λ v, id v ∉ id <$> pinned) l)).
Proof.
  intros Hl Hpin. unfold renderData. rewrite Hl, Hpin, filter_cb_ok. do 2 f_equal.
  apply list_filter_iff. intros v. apply not_pinned_spec.
Qed.

Lemma pinData_defined (source : Source) (d : Data) (l : Datatypes.list Question) :
  list d = Some l → ∃ pinned, pinData source (Some d) = Some pinned
                              ∧ pinned `sublist_of` l.
Proof.
  intros Hl. destruct source; simpl; rewrite ?Hl; eexists; split; try done.
  - etrans; [apply sublist_take|apply sublist_filter].
  - apply sublist_nil_l.
  - apply sublist_nil_l.
Qed.

(** X24. The pin list holds at most three questions, all of them pinned
    ([pin] is 2), in the order of the page; for a source other than
    [questions] it is empty. *)
Theorem X24_pin_list (source : Source) (data : option Data)
    (pinned : Datatypes.list Question) :
  pinData source data = Some pinned →
  (length pinned ≤ 3)%nat
  ∧ Forall (λ v, pin v = 2) pinned
  ∧ (source ≠ questions → pinned = [])
  ∧ ∀ d l, data = Some d → list d = Some l → pinned `sublist_of` l.
Proof.
  intros Hpin. destruct source; simpl in Hpin.
  - destruct data as [d|]; [|done]. destruct (list d) as [l|] eqn:Hl; [|done].
    injection Hpin as <-. split; [rewrite length_take; lia|].
    split; [apply Forall_take, Forall_forall; intros v Hv;
            by apply list_elem_of_filter in Hv as [? _]|].
    split; [done|]. intros d' l' [= <-] Hl'. rewrite Hl in Hl'. injection Hl' as <-.
    etrans; [apply sublist_take|apply sublist_filter].
  - injection Hpin as <-. split; [simpl; lia|]. split; [constructor|].
    split; [done|]. intros. apply sublist_nil_l.
  - injection Hpin as <-. split; [simpl; lia|]. split; [constructor|].
    split; [done|]. intros. apply sublist_nil_l.
Qed.

(** X25. The pin list is [undefined] exactly when the source is
    [questions] and the page or its list is. So wherever the page has a
    list, which is where the filter of the list below runs, [findIndex] has
    a pin list to be called on, and over entries that are question objects
    the list below is then computed; it is [undefined] exactly when the
    page or its list is. *)
Theorem X25_findIndex_has_a_receiver (source : Source) (data : option Data) :
  (pinData source data = None
   ↔ source = questions ∧ (data = None ∨ ∃ d, data = Some d ∧ list d = None))
  ∧ (∀ d l, data = Some d → list d = Some l →
       ∃ pinned rendered, pinData source data = Some pinned
                          ∧ renderData source data = Ok (Some rendered))
  ∧ (renderData source data = Ok None
     ↔ (data = None ∨ ∃ d, data = Some d ∧ list d = None)).
Proof.
  split; [|split].
  - destruct source, data as [d|]; simpl; try destruct (list d) eqn:Hl.
    all: split; [intros Hnone|intros (Hs & Hd)]; try done; eauto.
    destruct Hd as [?|(d' & [= <-] & Hnone)]; congruence.
  - intros d l -> Hl.
    destruct (pinData_defined source d l Hl) as (pinned & Hpin & _).
    eexists _, _. split; [exact Hpin|]. by apply renderData_spec.
  - destruct data as [d|]; [|split; eauto].
    destruct (list d) as [l|] eqn:Hl.
    + destruct (pinData_defined source d l Hl) as (pinned & Hpin & _).
      rewrite (renderData_spec source d l pinned Hl Hpin).
      split; [done|]. intros [?|(d' & [= <-] & Hnone)]; congruence.
    + unfold renderData. rewrite Hl. split; eauto.
Qed.

(** X26. No question is shown twice and none with a pinned twin: a question
    of the page is in the list below the pin list exactly when its id is
    not the id of a question of the pin list. For a source other than
    [questions] that is the whole page. *)
Theorem X26_rendered_iff_id_not_pinned (source : Source) (d : Data)
    (l pinned rendered : Datatypes.list Question) :
  list d = Some l →
  pinData source (Some d) = Some pinned →
  renderData source (Some d) = Ok (Some rendered) →
  (∀ v, v ∈ rendered ↔ v ∈ l ∧ ∀ p, p ∈ pinned → id p ≠ id v)
  ∧ rendered `sublist_of` l
  ∧ (source ≠ questions → rendered = l).
Proof.
  intros Hl Hpin Hrender. rewrite (renderData_spec _ _ _ _ Hl Hpin) in Hrender.
  injection Hrender as <-. split; [|split].
  - intros v. rewrite list_elem_of_filter, list_elem_of_fmap. split.
    + intros [Hnot Hin]. split; [done|]. intros p Hp Heq. apply Hnot. by exists p.
    + intros [Hin Hnot]. split; [|done]. intros (p & Heq & Hp). by apply (Hnot p).
  - apply sublist_filter.
  - intros Hsource. destruct source; [done| |]; simpl in Hpin; injection Hpin as <-.
    all: apply filter_none_pinned.
Qed.

Lemma sublist_complement (pinned l : Datatypes.list Question) :
  pinned `sublist_of` l →
  NoDup (id <$> l) →
  pinned ++ filter (λ v, id v ∉ id <$> pinned) l ≡ₚ l.
Proof.
  induction 1 as [|x p l Hsub IH|x p l Hsub IH]; intros Hnodup.
  - done.
  - rewrite fmap_cons in Hnodup. apply NoDup_cons in Hnodup as [Hx Hnodup].
    rewrite filter_cons, decide_False; [|intros Hin; apply Hin; rewrite fmap_cons; left].
    rewrite <- app_comm_cons. f_equiv.
    assert (filter (λ v, id v ∉ id <$> x :: p) l = filter (λ v, id v ∉ id <$> p) l)
      as ->; [|by apply IH].
    clear IH Hsub Hnodup. induction l as [|y l IHl]; [done|].
    rewrite fmap_cons in Hx. apply not_elem_of_cons in Hx as [Hne Hx].
    rewrite !filter_cons, (IHl Hx).
    destruct (decide (id y ∉ id <$> x :: p)) as [H1|H1],
             (decide (id y ∉ id <$> p)) as [H2|H2]; try done.
    + exfalso. apply H2. intros Hp. apply H1. rewrite fmap_cons. by right.
    + exfalso. apply H1. rewrite fmap_cons.
      intros [Heq|Hp]%elem_of_cons; [congruence|done].
  - rewrite fmap_cons in Hnodup. apply NoDup_cons in Hnodup as [Hx Hnodup].
    rewrite filter_cons, decide_True.
    + rewrite <- Permutation_middle. f_equiv. by apply IH.
    + intros Hp. apply Hx.
      apply list_elem_of_fmap in Hp as (q & Heq & Hq). rewrite Heq.
      apply list_elem_of_fmap. exists q. split; [done|].
      by eapply sublist_subseteq.
Qed.

(** X27. When the ids of the page are all different, every question of the
    page is shown exactly once: the pin list and the list below it together
    are a rearrangement of the page. A fourth pinned question is therefore
    shown in the list below. *)
Theorem X27_page_shown_exactly_once (source : Source) (d : Data)
    (l pinned rendered : Datatypes.list Question) :
  NoDup (id <$> l) →
  list d = Some l →
  pinData source (Some d) = Some pinned →
  renderData source (Some d) = Ok (Some rendered) →
  pinned ++ rendered ≡ₚ l.
Proof.
  intros Hnodup Hl Hpin Hrender.
  rewrite (renderData_spec _ _ _ _ Hl Hpin) in Hrender. injection Hrender as <-.
  apply sublist_complement; [|done].
  destruct (pinData_defined source d l Hl) as (pinned' & Hpin' & Hsub). congruence.
Qed.
End question_list.

Section question_list_on_a_page.
Import QuestionList.

Lemma X24_three_of_four_pinned :
  pinData questions (Some page) = Some [question "1" 2; question "3" 2; question "4" 2]
  ∧ (length [question "1" 2; question "3" 2; question "4" 2] ≤ 3)%nat.
Proof.
  assert (pinData questions (Some page)
          = Some [question "1" 2; question "3" 2; question "4" 2]) as Hpin
    by reflexivity.
  split; [exact Hpin|].
  exact (proj1 (X24_pin_list questions (Some page) _ Hpin)).
Defined.

Lemma X26_fourth_pinned_rendered :
  renderData questions (Some page) = Ok (Some [question "2" 1; question "5" 2])
  ∧ (question "5" 2 ∈ [question "2" 1; question "5" 2]
     ↔ question "5" 2 ∈ [question "1" 2; question "2" 1; question "3" 2;
                         question "4" 2; question "5" 2]
       ∧ ∀ p, p ∈ [question "1" 2; question "3" 2; question "4" 2] →
              id p ≠ id (question "5" 2)).
Proof.
  assert (renderData questions (Some page)
          = Ok (Some [question "2" 1; question "5" 2])) as Hrender by reflexivity.
  split; [exact Hrender|].
  exact (proj1 (X26_rendered_iff_id_not_pinned questions page _ _ _
                  eq_refl eq_refl Hrender) (question "5" 2)).
Defined.

Lemma X27_page_of_five_shown_once :
  NoDup (id <$> [question "1" 2; question "2" 1; question "3" 2;
                 question "4" 2; question "5" 2])
  ∧ [question "1" 2; question "3" 2; question "4" 2]
    ++ [question "2" 1; question "5" 2]
    ≡ₚ [question "1" 2; question "2" 1; question "3" 2; question "4" 2;
        question "5" 2].
Proof.
  assert (NoDup (id <$> [question "1" 2; question "2" 1; question "3" 2;
                         question "4" 2; question "5" 2])) as Hnodup.
  { apply (bool_decide_unpack _). vm_compute. exact I. }
  split; [exact Hnodup|].
  exact (X27_page_shown_exactly_once questions page _ _ _ Hnodup
           eq_refl eq_refl eq_refl).
Defined.
End question_list_on_a_page.
